(** * SekouAI: risk classification and model lifecycle

  A shallow embedding of [backend/schemas.py], [backend/model_utils.py],
  [backend/database.py] and the [/predict], [/triage] and [/train] handlers
  of [backend/main.py].

  Python [float] is IEEE 754 binary64: it is Rocq's primitive [float], and
  Python's comparison operators are [PrimFloat.leb] and [PrimFloat.ltb]
  (false as soon as one side is NaN).  Python [int] is [Z], [str] is
  [string], [bytes] is [list byte], and a [dict] is an association list in
  insertion order. *)

From Stdlib Require Import ZArith List String Ascii Bool Lia Floats.
From Stdlib Require Strings.Byte.
From Stdlib Require Import Permutation Sorted.
Import ListNotations.

Set Implicit Arguments.
Set Warnings "-register-all,-inexact-float".

(* ===================================================================== *)
(** ** Python comparisons on binary64 *)
(* ===================================================================== *)

Module PyFloat.

(** [x >= y] and [x > y] as Python evaluates them on two floats. *)
Definition ge (x y : float) : bool := PrimFloat.leb y x.
Definition gt (x y : float) : bool := PrimFloat.ltb y x.
Definition lt (x y : float) : bool := PrimFloat.ltb x y.

(** [-np.inf] *)
Definition neg_inf : float := PrimFloat.neg_infinity.

End PyFloat.

(* ===================================================================== *)
(** ** Python values, dictionaries and exceptions *)
(* ===================================================================== *)

Module Py.

(** [Dict[str, Any]]: the JSON values a request body can carry. *)
Inductive value : Type :=
| VNone
| VBool (b : bool)
| VInt (z : Z)
| VFloat (f : float)
| VStr (s : string)
| VList (l : list value)
| VDict (d : list (string * value)).

(** A [dict] with string keys keeps its keys in insertion order. *)
Definition dict : Type := list (string * value).

Definition bytes : Type := list Byte.byte.

(** [k in d] *)
Definition dict_contains (d : dict) (k : string) : bool :=
existsb (fun kv => String.eqb (fst kv) k) d.

(** [d.get(k)] *)
Fixpoint dict_get (d : dict) (k : string) : option value :=
match d with
| [] => None
| (k', v) :: rest => if String.eqb k' k then Some v else dict_get rest k
end.

(** [d[k] = v]: an existing key keeps its place and takes the new value, a
    new key goes last. *)
Fixpoint dict_set (d : dict) (k : string) (v : value) : dict :=
match d with
| [] => [(k, v)]
| (k', v') :: rest =>
    if String.eqb k' k then (k', v) :: rest else (k', v') :: dict_set rest k v
end.

(** [del d[k]] where the key may be absent. *)
Fixpoint dict_remove (d : dict) (k : string) : dict :=
match d with
| [] => []
| (k', v') :: rest =>
    if String.eqb k' k then rest else (k', v') :: dict_remove rest k
end.

(** [d.pop(k, default)]: the value found (or the default) and the dict left. *)
Definition dict_pop (d : dict) (k : string) (default : value) : value * dict :=
match dict_get d k with
| Some v => (v, dict_remove d k)
| None => (default, d)
end.

(** [{**d1, **d2}] *)
Definition dict_merge (d1 d2 : dict) : dict :=
fold_left (fun acc kv => dict_set acc (fst kv) (snd kv)) d2 d1.

Definition dict_keys (d : dict) : list string := map fst d.

(** [s in {...}] for a set of string literals. *)
Definition str_in (s : string) (lits : list string) : bool :=
existsb (String.eqb s) lits.

(** The exceptions that travel through this code; all of them derive from
    [Exception].  [LibraryError] stands for whatever pandas, scikit-learn or
    joblib raise from inside. *)
Inductive exn : Type :=
| KeyError (key : string)
| IndexError
| ImportError (module : string)
| RuntimeError (msg : string)
| InvalidRequestError
| ValidationError
| LibraryError (msg : string).

Inductive result (A : Type) : Type :=
| Ok (a : A)
| Raise (e : exn).

Arguments Ok {A} a.
Arguments Raise {A} e.

Definition bind (A B : Type) (c : result A) (k : A -> result B) : result B :=
match c with
| Ok a => k a
| Raise e => Raise e
end.

(** [try: c  except Exception: handler] where both sides yield a value. *)
Definition try_except (A : Type) (c : result A) (handler : exn -> A) : A :=
match c with
| Ok a => a
| Raise e => handler e
end.

(** [xs[i]] *)
Definition getitem (A : Type) (xs : list A) (i : nat) : result A :=
match nth_error xs i with
| Some x => Ok x
| None => Raise IndexError
end.

End Py.

Notation "x <- c ;; k" := (Py.bind c (fun x => k))
  (at level 61, c at next level, right associativity).
Notation "' pat <- c ;; k" := (Py.bind c (fun x => match x with pat => k end))
  (at level 61, pat pattern, c at next level, right associativity).

(* ===================================================================== *)
(** ** schemas.py *)
(* ===================================================================== *)

Module Schemas.
Import Py.

(** [RiskLevel = Literal["low", "medium", "high"]] *)
Inductive RiskLevel : Type := low | medium | high.

Definition RiskLevel_str (r : RiskLevel) : string :=
  match r with
  | low => "low"
  | medium => "medium"
  | high => "high"
  end.

(** Membership of a string in the literal set, with the level it names. *)
Definition RiskLevel_of_str (s : string) : option RiskLevel :=
  if String.eqb s "low" then Some low
  else if String.eqb s "medium" then Some medium
  else if String.eqb s "high" then Some high
  else None.

(** [Sex = Literal["male", "female", "other"]] *)
Inductive Sex : Type := male | female | other.

(** [class PredictionInput(BaseModel)] *)
Record PredictionInput : Type := mkPredictionInput {
  amount : float;                 (* Field(..., ge=0) *)
  category : string;              (* Field(..., min_length=1) *)
  features : option dict          (* Dict[str, Any] | None *)
}.

(** What pydantic's validation lets through: [ge=0] and [min_length=1]. *)
Definition PredictionInput_valid (p : PredictionInput) : Prop :=
  PyFloat.ge (amount p) 0%float = true /\ category p <> EmptyString.

(** [class TriageInput(BaseModel)] *)
Record TriageInput : Type := mkTriageInput {
  name : option string;
  age : Z;                        (* Field(..., ge=0, le=120) *)
  sex : Sex;
  fever : bool;
  cough : bool;
  shortness_of_breath : bool;
  antecedents : option string
}.

Definition TriageInput_valid (p : TriageInput) : Prop :=
  (0 <= age p <= 120)%Z.

(** [payload.model_dump()] *)
Definition option_dict_value (f : option dict) : value :=
match f with
| Some d => VDict d
| None => VNone
end.

Definition PredictionInput_model_dump (p : PredictionInput) : dict :=
[ ("amount", VFloat (amount p));
  ("category", VStr (category p));
  ("features", option_dict_value (features p)) ]%string.

(** [class PredictionResponse(BaseModel)]; [created_at] is the ISO string of
    a timestamp, kept as the timestamp. *)
Record PredictionResponse : Type := mkPredictionResponse {
  risk_level : RiskLevel;
  id : Z;
  created_at : Z
}.

(** [PredictionResponse(risk_level=..., id=..., created_at=...)]: pydantic
    checks the string against the literal type. *)
Definition PredictionResponse_new (risk : string) (i : Z) (t : Z)
  : result PredictionResponse :=
match RiskLevel_of_str risk with
| Some r => Ok (mkPredictionResponse r i t)
| None => Raise ValidationError
end.

(** [class TrainRecord(BaseModel)] *)
Record TrainRecord : Type := mkTrainRecord {
  tr_amount : float;
  tr_category : string;
  tr_features : option dict;
  tr_label : RiskLevel
}.

Definition TrainRecord_model_dump (r : TrainRecord) : dict :=
[ ("amount", VFloat (tr_amount r));
  ("category", VStr (tr_category r));
  ("features", option_dict_value (tr_features r));
  ("label", VStr (RiskLevel_str (tr_label r))) ]%string.

(** [class TrainRequest(BaseModel)]; the two optional fields carry their
    defaults, ["f1_macro"] and [3]. *)
Record TrainRequest : Type := mkTrainRequest {
  records : list TrainRecord;
  scoring : option string;
  cv_folds : option Z             (* Field(default=3, ge=2) *)
}.

(** [class TrainResponse(BaseModel)] *)
Record TrainResponse : Type := mkTrainResponse {
  best_model_name : string;
  best_score : float;
  best_params : dict;
  model_id : Z
}.

End Schemas.

(* ===================================================================== *)
(** ** model_utils.py: the rule engine *)
(* ===================================================================== *)

Module Rules.
Import Py Schemas.

(** [def simple_risk_model(payload: PredictionInput) -> RiskLevel] *)
Definition simple_risk_model (payload : PredictionInput) : RiskLevel :=
  let amount := amount payload in
  if PyFloat.ge amount 10000%float then high
  else if PyFloat.ge amount 1000%float then medium
  else low.

(** [def triage_risk_model(payload: TriageInput) -> RiskLevel] *)
Definition triage_risk_model (payload : TriageInput) : RiskLevel :=
  if shortness_of_breath payload then high
  else if (age payload >=? 75)%Z && fever payload then high
  else if (age payload >=? 65)%Z || (fever payload && cough payload) then medium
  else low.

(** The decision list as the specification words it: an ordered list of
    (condition, outcome) rules, the first rule whose condition holds
    decides, and a default when none does. *)
Definition decision_list (A : Type) : Type := list ((A -> bool) * RiskLevel).

Fixpoint first_match (A : Type) (rules : decision_list A) (default : RiskLevel)
         (x : A) : RiskLevel :=
  match rules with
  | [] => default
  | (cond, out) :: rest => if cond x then out else first_match rest default x
  end.

Definition triage_rules : decision_list TriageInput :=
  [ (fun p => shortness_of_breath p, high);
    (fun p => (75 <=? age p)%Z && fever p, high);
    (fun p => (65 <=? age p)%Z || (fever p && cough p), medium) ].

Definition classifyTriage_spec (p : TriageInput) : RiskLevel :=
  first_match triage_rules low p.

End Rules.

(* ===================================================================== *)
(** ** pandas, as far as this code uses it *)
(* ===================================================================== *)

Module Pandas.
Import Py.

(** A [DataFrame] over a [RangeIndex]: the number of rows, and the columns
    in order, each a label with its cells.  Labels may repeat. *)
Record DataFrame : Type := mkDataFrame {
  nrows : nat;
  columns : list (string * list value)
}.

Definition column_names (df : DataFrame) : list string := map fst (columns df).

(** The missing-cell marker, [np.nan]. *)
Definition NaN : value := VFloat nan.

Definition add_key (acc : list string) (k : string) : list string :=
if existsb (String.eqb k) acc then acc else acc ++ [k].

(** The keys of a list of dicts, in order of first appearance. *)
Definition union_keys (rows : list dict) : list string :=
fold_left (fun acc row => fold_left add_key (dict_keys row) acc) rows [].

Definition cell (k : string) (row : dict) : value :=
match dict_get row k with
| Some v => v
| None => NaN
end.

(** [pd.DataFrame(rows)] for a list of dicts: one column per key. *)
Definition pd_DataFrame (rows : list dict) : DataFrame :=
mkDataFrame (List.length rows) (map (fun k => (k, map (cell k) rows)) (union_keys rows)).

(** [c in df.columns] *)
Definition has_column (df : DataFrame) (c : string) : bool :=
existsb (String.eqb c) (column_names df).

(** [df[c]]: every column that carries the label [c]. *)
Definition df_getitem (df : DataFrame) (c : string) : list (list value) :=
map snd (filter (fun col => String.eqb (fst col) c) (columns df)).

(** [df.pop(c)]: [KeyError] when the label is absent; otherwise the column
    and the frame without it.  Where this code calls it the label is unique. *)
Definition df_pop (df : DataFrame) (c : string) : result (list value * DataFrame) :=
match df_getitem df c with
| [] => Raise (KeyError c)
| series :: _ =>
    Ok (series,
        mkDataFrame (nrows df)
          (filter (fun col => negb (String.eqb (fst col) c)) (columns df)))
end.

(** [series.fillna({})]: a dict names the fill value per index label, and
    with the empty dict pandas returns the series as it is. *)
Definition fillna_empty_dict (s : list value) : list value := s.

(** [_normalise_json(data, key_string, normalized_dict, separator=".")] *)
Fixpoint _normalise_json (data : value) (key_string : string)
         (normalized_dict : dict) : dict :=
match data with
| VDict d =>
    (fix items (d : list (string * value)) (acc : dict) : dict :=
       match d with
       | [] => acc
       | (key, v) :: rest =>
           let new_key :=
             match key_string with
             | EmptyString => key
             | _ => (key_string ++ "." ++ key)%string
             end in
           items rest (_normalise_json v new_key acc)
       end) d normalized_dict
| _ => dict_set normalized_dict key_string data
end.

Definition is_dict (v : value) : bool :=
match v with
| VDict _ => true
| _ => false
end.

(** [_normalise_json_ordered(data, separator=".")]: the scalar entries
    first, then the nested ones flattened under dotted keys. *)
Definition _normalise_json_ordered (data : dict) : dict :=
let top_dict_ := filter (fun kv => negb (is_dict (snd kv))) data in
let nested_dict_ :=
  _normalise_json (VDict (filter (fun kv => is_dict (snd kv)) data)) "" [] in
dict_merge top_dict_ nested_dict_.

(** [_simple_json_normalize(ds)] on one cell: a dict is flattened, anything
    else (here: [None]) gives the empty record. *)
Definition _simple_json_normalize (ds : value) : dict :=
match ds with
| VDict d => _normalise_json_ordered d
| _ => []
end.

(** [pd.json_normalize(series)] *)
Definition json_normalize (series : list value) : DataFrame :=
pd_DataFrame (map _simple_json_normalize series).

(** [pd.concat([a, b], axis=1)] of two frames over the same index: the
    columns of [a], then the columns of [b]; equal labels are all kept. *)
Definition pd_concat_axis1 (a b : DataFrame) : DataFrame :=
mkDataFrame (nrows a) (columns a ++ columns b).

End Pandas.

(* ===================================================================== *)
(** ** model_utils.py: training, selection, serialisation *)
(* ===================================================================== *)

Module ModelUtils.
Import Py Schemas Pandas.

(** [ColumnTransformer([("num", StandardScaler(), numeric_cols),
                        ("cat", OneHotEncoder(handle_unknown="ignore"), categorical_cols)])] *)
Record ColumnTransformer : Type := mkColumnTransformer {
  numeric_cols : list string;
  categorical_cols : list string
}.

(** The three learners, each with the keyword arguments it is built with. *)
Inductive Classifier : Type :=
| RandomForestClassifier (random_state : Z)
| XGBClassifier (objective : string) (num_class : Z) (tree_method : string)
                (eval_metric : string) (random_state : Z) (verbosity : Z)
| LGBMClassifier (objective : string) (num_class : Z) (random_state : Z).

Definition param_grid : Type := list (string * list value).

(** [Pipeline(steps=[("pre", pre), ("clf", clf)])] *)
Record Pipeline : Type := mkPipeline {
  pre : ColumnTransformer;
  clf : Classifier
}.

(** [GridSearchCV(pipe, params, cv=cv_folds, scoring=scoring, n_jobs=-1)] *)
Record GridSearchCV : Type := mkGridSearchCV {
  estimator : Pipeline;
  grid : param_grid;
  cv : option Z;
  gs_scoring : option string;
  n_jobs : Z
}.

(** What a successful [gs.fit(X, y)] leaves on the search object. *)
Record Fitted (Estimator : Type) : Type := mkFitted {
  best_score_ : float;
  best_params_ : dict;
  best_estimator_ : Estimator
}.

(** What the code takes from its environment: which packages import, how
    pandas types a column, what a grid search yields, how joblib writes and
    reads a fitted pipeline, and what a loaded pipeline predicts (each
    prediction as [str] prints it). *)
Record Runtime (Estimator : Type) : Type := mkRuntime {
  installed : string -> bool;
  is_numeric_dtype : list (list value) -> bool;
  grid_search_fit : GridSearchCV -> DataFrame -> list value -> result (Fitted Estimator);
  joblib_dump : Estimator -> result bytes;
  joblib_load : bytes -> result Estimator;
  estimator_predict : Estimator -> DataFrame -> result (list string)
}.

Section WithRuntime.
Variable Estimator : Type.
Variable rt : Runtime Estimator.

(** [import m] / [from m import ...] *)
Definition import_ (m : string) : result unit :=
if installed rt m then Ok tt else Raise (ImportError m).

(** [def _records_to_dataframe(records: list[dict]) -> tuple[Any, Any]] *)
Definition _records_to_dataframe (records : list dict)
  : result (DataFrame * list value) :=
_ <- import_ "pandas" ;;
_ <- import_ "numpy" ;;
let df := pd_DataFrame records in
' (label, df) <- df_pop df "label" ;;
let y := label in
if has_column df "features" then
  ' (feat, df) <- df_pop df "features" ;;
  let feat_series := fillna_empty_dict feat in
  let feat_df := json_normalize feat_series in
  let df := pd_concat_axis1 df feat_df in
  Ok (df, y)
else Ok (df, y).

(** [def _build_preprocessor(df: Any) -> Any] *)
Definition _build_preprocessor (df : DataFrame) : result ColumnTransformer :=
_ <- import_ "pandas" ;;
_ <- import_ "sklearn" ;;
let numeric_cols :=
  filter (fun c => is_numeric_dtype rt (df_getitem df c)) (column_names df) in
let categorical_cols :=
  filter (fun c => negb (existsb (String.eqb c) numeric_cols)) (column_names df) in
Ok (mkColumnTransformer numeric_cols categorical_cols).

(** [def _grid_rf() -> tuple[Any, dict]] *)
Definition _grid_rf : result (Classifier * param_grid) :=
_ <- import_ "sklearn" ;;
let clf := RandomForestClassifier 42 in
let params :=
  [ ("clf__n_estimators", [VInt 100; VInt 300]);
    ("clf__max_depth", [VNone; VInt 10; VInt 20]) ]%string in
Ok (clf, params).

(** [def _grid_xgb()]: a failed import is caught and gives [(None, {})]. *)
Definition _grid_xgb : option Classifier * param_grid :=
match import_ "xgboost" with
| Raise _ => (None, [])
| Ok _ =>
    let clf := XGBClassifier "multi:softprob" 3 "hist" "mlogloss" 42 0 in
    let params :=
      [ ("clf__n_estimators", [VInt 200; VInt 400]);
        ("clf__max_depth", [VInt 3; VInt 6]);
        ("clf__learning_rate", [VFloat 0.05; VFloat 0.1]) ]%string in
    (Some clf, params)
end.

(** [def _grid_lgbm()] *)
Definition _grid_lgbm : option Classifier * param_grid :=
match import_ "lightgbm" with
| Raise _ => (None, [])
| Ok _ =>
    let clf := LGBMClassifier "multiclass" 3 42 in
    let params :=
      [ ("clf__n_estimators", [VInt 200; VInt 400]);
        ("clf__max_depth", [VInt (-1); VInt 10; VInt 20]);
        ("clf__learning_rate", [VFloat 0.05; VFloat 0.1]) ]%string in
    (Some clf, params)
end.

(** The candidate list [grids] of [train_select_serialize], as its lines
    133 to 154 build it. *)
Definition candidate_grids (pre : ColumnTransformer) (scoring : option string)
           (cv_folds : option Z) : result (list (string * GridSearchCV)) :=
let grids := [] in
' (rf, rf_params) <- _grid_rf ;;
let rf_pipe := mkPipeline pre rf in
let rf_gs := mkGridSearchCV rf_pipe rf_params cv_folds scoring (-1) in
let grids := grids ++ [("RandomForest"%string, rf_gs)] in
let '(xgb, xgb_params) := _grid_xgb in
let grids :=
  match xgb with
  | Some xgb =>
      let xgb_pipe := mkPipeline pre xgb in
      let xgb_gs := mkGridSearchCV xgb_pipe xgb_params cv_folds scoring (-1) in
      grids ++ [("XGBoost"%string, xgb_gs)]
  | None => grids
  end in
let '(lgbm, lgbm_params) := _grid_lgbm in
let grids :=
  match lgbm with
  | Some lgbm =>
      let lgbm_pipe := mkPipeline pre lgbm in
      let lgbm_gs := mkGridSearchCV lgbm_pipe lgbm_params cv_folds scoring (-1) in
      grids ++ [("LightGBM"%string, lgbm_gs)]
  | None => grids
  end in
Ok grids.

(** The four running variables of the selection loop. *)
Record Best : Type := mkBest {
  best_name : string;
  best_score : float;
  best_params : dict;
  best_estimator : option Estimator
}.

(** [best_name = ""; best_score = -np.inf; best_params = {}; best_estimator = None] *)
Definition initial_best : Best := mkBest "" PyFloat.neg_inf [] None.

(** [for name, gs in grids: gs.fit(X_df, y); if gs.best_score_ > best_score: ...] *)
Fixpoint fit_candidates (X_df : DataFrame) (y : list value)
         (grids : list (string * GridSearchCV)) (best : Best) : result Best :=
match grids with
| [] => Ok best
| (name, gs) :: rest =>
    fitted <- grid_search_fit rt gs X_df y ;;
    let best :=
      if PyFloat.gt (best_score_ fitted) (best_score best)
      then mkBest name (best_score_ fitted) (best_params_ fitted)
                  (Some (best_estimator_ fitted))
      else best in
    fit_candidates X_df y rest best
end.

(** [def train_select_serialize(records, scoring="f1_macro", cv_folds=3)
       -> tuple[str, float, dict, bytes]] *)
Definition train_select_serialize (records : list dict) (scoring : option string)
           (cv_folds : option Z) : result (string * float * dict * bytes) :=
_ <- import_ "numpy" ;;
_ <- import_ "sklearn" ;;
_ <- import_ "joblib" ;;
' (X_df, y) <- _records_to_dataframe records ;;
pre <- _build_preprocessor X_df ;;
grids <- candidate_grids pre scoring cv_folds ;;
best <- fit_candidates X_df y grids initial_best ;;
match best_estimator best with
| None => Raise (RuntimeError "No estimator was trained successfully")
| Some best_estimator =>
    artifact_bytes <- joblib_dump rt best_estimator ;;
    Ok (best_name best, best_score best, best_params best, artifact_bytes)
end.

(** [def load_model_from_bytes(artifact: bytes)] *)
Definition load_model_from_bytes (artifact : bytes) : result Estimator :=
_ <- import_ "joblib" ;;
joblib_load rt artifact.

End WithRuntime.

End ModelUtils.

(* ===================================================================== *)
(** ** database.py: the tables and the session *)
(* ===================================================================== *)

Module Database.
Import Py.

(** [class Prediction(Base)]; timestamps are instants on the UTC clock. *)
Module Prediction.
Record t : Type := mk {
  id : Z;
  risk_level : string;
  input_data : dict;
  created_at : Z
}.
End Prediction.

(** [class ModelArtifact(Base)] *)
Module ModelArtifact.
Record t : Type := mk {
  id : Z;
  name : string;
  created_at : Z;
  metrics : dict;
  artifact : bytes;
  active : bool
}.

(** A row with its [active] column set to a new value. *)
Definition set_active (b : bool) (r : t) : t :=
mk (id r) (name r) (created_at r) (metrics r) (artifact r) b.
End ModelArtifact.

(** The two tables of the SQLite file that this code reads and writes. *)
Record Store : Type := mkStore {
  models : list ModelArtifact.t;
  predictions : list Prediction.t
}.

(** An object handed to [db.add] and not yet flushed: it has neither its
    primary key nor its [created_at] default. *)
Inductive Transient : Type :=
| NewModelArtifact (name : string) (metrics : dict) (artifact : bytes) (active : bool)
| NewPrediction (risk_level : string) (input_data : dict).

(** The primary key of an object that was flushed. *)
Inductive Identity : Type :=
| ModelArtifactKey (id : Z)
| PredictionKey (id : Z).

(** A [Session] ([autocommit=False, autoflush=False]): the committed
    database, the view inside the open transaction, the objects added and
    not yet flushed, the keys of the objects flushed (in the order they were
    added), and the states this session has committed (oldest first). *)
Record Session : Type := mkSession {
  committed : Store;
  tx : Store;
  new : list Transient;
  identity_map : list Identity;
  history : list Store
}.

(** [SessionLocal()] on a database. *)
Definition open_session (db : Store) : Session := mkSession db db [] [] [].

(** [db.close()]: what was not committed is rolled back. *)
Definition close_session (s : Session) : Store := committed s.

(** The key an [INTEGER PRIMARY KEY] column gets on insert: one more than
    the largest key in the table, 1 in an empty table. *)
Definition next_id (ids : list Z) : Z :=
match ids with
| [] => 1
| i :: rest => fold_right Z.max i rest + 1
end.

(** [INSERT] of one object at flush time; [now] is what the column default
    [datetime.now(UTC)] reads. *)
Definition insert (now : Z) (obj : Transient) (st : Store) : Identity * Store :=
match obj with
| NewModelArtifact name metrics artifact active =>
    let i := next_id (map ModelArtifact.id (models st)) in
    (ModelArtifactKey i,
     mkStore (models st ++ [ModelArtifact.mk i name now metrics artifact active])
             (predictions st))
| NewPrediction risk_level input_data =>
    let i := next_id (map Prediction.id (predictions st)) in
    (PredictionKey i,
     mkStore (models st)
             (predictions st ++ [Prediction.mk i risk_level input_data now]))
end.

Fixpoint flush (now : Z) (objs : list Transient) (st : Store)
  : list Identity * Store :=
match objs with
| [] => ([], st)
| obj :: rest =>
    let '(k, st) := insert now obj st in
    let '(ks, st) := flush now rest st in
    (k :: ks, st)
end.

(** A handle on an object given to [db.add]: its rank among the objects
    this session was given. *)
Definition handle : Type := nat.

(** [db.add(obj)] *)
Definition db_add (s : Session) (obj : Transient) : handle * Session :=
(List.length (identity_map s) + List.length (new s),
 mkSession (committed s) (tx s) (new s ++ [obj]) (identity_map s) (history s)).

(** [db.commit()]: flush, then make the transaction's view the committed
    state. *)
Definition db_commit (now : Z) (s : Session) : Session :=
let '(keys, st) := flush now (new s) (tx s) in
mkSession st st [] (identity_map s ++ keys) (history s ++ [st]).

(** [db.refresh(obj)] for a [ModelArtifact]: the row is read again by its
    primary key; an object that is not persistent raises. *)
Definition db_refresh_model (s : Session) (h : handle) : result ModelArtifact.t :=
match nth_error (identity_map s) h with
| Some (ModelArtifactKey i) =>
    match find (fun r => Z.eqb (ModelArtifact.id r) i) (models (tx s)) with
    | Some r => Ok r
    | None => Raise InvalidRequestError
    end
| _ => Raise InvalidRequestError
end.

(** [db.refresh(obj)] for a [Prediction]. *)
Definition db_refresh_prediction (s : Session) (h : handle) : result Prediction.t :=
match nth_error (identity_map s) h with
| Some (PredictionKey i) =>
    match find (fun r => Z.eqb (Prediction.id r) i) (predictions (tx s)) with
    | Some r => Ok r
    | None => Raise InvalidRequestError
    end
| _ => Raise InvalidRequestError
end.

(** [... .order_by(ModelArtifact.created_at.desc())]: rows with the same
    timestamp stay in table order here; SQL leaves their order open. *)
Fixpoint insert_desc (r : ModelArtifact.t) (l : list ModelArtifact.t)
  : list ModelArtifact.t :=
match l with
| [] => [r]
| x :: rest =>
    if (ModelArtifact.created_at x <=? ModelArtifact.created_at r)%Z
    then r :: x :: rest
    else x :: insert_desc r rest
end.

Definition order_by_created_at_desc (l : list ModelArtifact.t)
  : list ModelArtifact.t :=
fold_right insert_desc [] l.

(** [db.query(ModelArtifact).filter(ModelArtifact.active == True)
       .order_by(ModelArtifact.created_at.desc()).first()] *)
Definition query_active_model (s : Session) : option ModelArtifact.t :=
hd_error (order_by_created_at_desc (filter ModelArtifact.active (models (tx s)))).

(** [db.query(ModelArtifact).filter(ModelArtifact.active == True)
       .update({"active": False})] *)
Definition update_active_false (s : Session) : Session :=
let deactivate r :=
  if ModelArtifact.active r then ModelArtifact.set_active false r else r in
mkSession (committed s)
          (mkStore (map deactivate (models (tx s))) (predictions (tx s)))
          (new s) (identity_map s) (history s).

End Database.

(* ===================================================================== *)
(** ** main.py: the /predict, /triage and /train handlers *)
(* ===================================================================== *)

Module Main.
Import Py Schemas Rules Pandas ModelUtils Database.

Section WithRuntime.
Variable Estimator : Type.
Variable rt : Runtime Estimator.

(** [data.pop("features", None) or {}] *)
Definition or_empty_dict (v : value) : dict :=
match v with
| VDict d => d
| _ => []
end.

(** The body of [if active_model:] in [predict], up to [risk = str(pred)]. *)
Definition model_prediction (payload : PredictionInput)
           (active_model : ModelArtifact.t) : result string :=
model <- load_model_from_bytes rt (ModelArtifact.artifact active_model) ;;
let data := PredictionInput_model_dump payload in
let '(popped, data) := dict_pop data "features" VNone in
let features := or_empty_dict popped in
let row := dict_merge data features in
_ <- import_ rt "pandas" ;;
let X_df := pd_DataFrame [row] in
preds <- estimator_predict rt model X_df ;;
pred <- getitem preds 0 ;;
let risk := pred in
Ok risk.

(** The [try: ... except Exception: ...] block of [predict]. *)
Definition predict_risk (payload : PredictionInput)
           (active_model : option ModelArtifact.t) : string :=
try_except
  (match active_model with
   | Some active_model =>
       risk <- model_prediction payload active_model ;;
       if negb (str_in risk ["low"; "medium"; "high"]%string)
       then Ok (RiskLevel_str (simple_risk_model payload))
       else Ok risk
   | None => Ok (RiskLevel_str (simple_risk_model payload))
   end)
  (fun _ => RiskLevel_str (simple_risk_model payload)).

(** [def predict(payload: PredictionInput, db: Session = Depends(get_db))] *)
Definition predict (payload : PredictionInput) (now : Z) (db : Session)
  : result PredictionResponse * Session :=
let active_model := query_active_model db in
let risk := predict_risk payload active_model in
let record := NewPrediction risk (PredictionInput_model_dump payload) in
let '(record, db) := db_add db record in
let db := db_commit now db in
match db_refresh_prediction db record with
| Raise e => (Raise e, db)
| Ok record =>
    (PredictionResponse_new risk (Prediction.id record) (Prediction.created_at record),
     db)
end.

(** [def train(request: TrainRequest, db: Session = Depends(get_db))] *)
Definition train (request : TrainRequest) (now : Z) (db : Session)
  : result TrainResponse * Session :=
let records := map TrainRecord_model_dump (records request) in
match train_select_serialize rt records (scoring request) (cv_folds request) with
| Raise e => (Raise e, db)
| Ok (best_name, best_score, best_params, artifact) =>
    let db := update_active_false db in
    let model_row :=
      NewModelArtifact best_name
        [("score", VFloat best_score); ("params", VDict best_params)]%string
        artifact true in
    let '(model_row, db) := db_add db model_row in
    let db := db_commit now db in
    match db_refresh_model db model_row with
    | Raise e => (Raise e, db)
    | Ok model_row =>
        (Ok (mkTrainResponse best_name best_score best_params
                             (ModelArtifact.id model_row)),
         db)
    end
end.

(** One request: [get_db] opens a session for the handler and closes it when
    the handler returns or raises. *)
Definition with_db (A : Type) (handler : Session -> result A * Session)
           (db : Store) : result A * Store :=
let '(r, s) := handler (open_session db) in
(r, close_session s).

Definition post_predict (payload : PredictionInput) (now : Z) (db : Store)
  : result PredictionResponse * Store :=
with_db (predict payload now) db.

Definition post_train (request : TrainRequest) (now : Z) (db : Store)
  : result TrainResponse * Store :=
with_db (train request now) db.

End WithRuntime.

(** [payload.model_dump()] for a [TriageInput]. *)
Definition TriageInput_model_dump (p : TriageInput) : dict :=
[ ("name", match name p with Some n => VStr n | None => VNone end);
  ("age", VInt (age p));
  ("sex", VStr match sex p with
               | male => "male" | female => "female" | other => "other"
               end);
  ("fever", VBool (fever p));
  ("cough", VBool (cough p));
  ("shortness_of_breath", VBool (shortness_of_breath p));
  ("antecedents", match antecedents p with Some a => VStr a | None => VNone end)
]%string.

(** [def triage(payload: TriageInput, db: Session = Depends(get_db))] *)
Definition triage (payload : TriageInput) (now : Z) (db : Session)
  : result PredictionResponse * Session :=
let risk := RiskLevel_str (triage_risk_model payload) in
let record := NewPrediction risk (TriageInput_model_dump payload) in
let '(record, db) := db_add db record in
let db := db_commit now db in
match db_refresh_prediction db record with
| Raise e => (Raise e, db)
| Ok record =>
    (PredictionResponse_new risk (Prediction.id record) (Prediction.created_at record),
     db)
end.

End Main.

(* ===================================================================== *)
(** ** Notions used to state the properties, and sample data *)
(* ===================================================================== *)

Module Props.
Import Py Schemas Rules Pandas ModelUtils Database Main.

(** Exactly one of three booleans is true. *)
Definition exactly_one (a b c : bool) : bool :=
  match a, b, c with
  | true, false, false | false, true, false | false, false, true => true
  | _, _, _ => false
  end.

(** Newest first. *)
Definition newer_or_same (a b : ModelArtifact.t) : Prop :=
(ModelArtifact.created_at b <= ModelArtifact.created_at a)%Z.

(** A stored artifact with a given key, timestamp and [active] flag. *)
Definition artifact_at (i t : Z) (b : bool) : ModelArtifact.t :=
ModelArtifact.mk i "RandomForest" t [] [] b.

(** The row that a successful [train] stores: a fresh key, the winner's
    name, score and parameters, the serialized pipeline, [active = True]. *)
Definition new_artifact (db : Store) (now : Z) (best_name : string)
           (best_score : float) (best_params : dict) (artifact : bytes)
  : ModelArtifact.t :=
ModelArtifact.mk (next_id (map ModelArtifact.id (models db))) best_name now
  [("score", VFloat best_score); ("params", VDict best_params)]%string
  artifact true.

(** The database after a successful [train]: every earlier artifact
    inactive, the new one appended. *)
Definition store_after_train (db : Store) (now : Z) (best_name : string)
           (best_score : float) (best_params : dict) (artifact : bytes) : Store :=
mkStore (map (ModelArtifact.set_active false) (models db)
           ++ [new_artifact db now best_name best_score best_params artifact])
        (predictions db).

Definition session_after_train (db : Store) (now : Z) (best_name : string)
           (best_score : float) (best_params : dict) (artifact : bytes) : Session :=
let final := store_after_train db now best_name best_score best_params artifact in
mkSession final final []
  [ModelArtifactKey (next_id (map ModelArtifact.id (models db)))] [final].

(** The single row that [predict] hands to the model: the dumped payload
    without its [features] entry, merged with the features. *)
Definition inference_row (payload : PredictionInput) : dict :=
let '(popped, data) := dict_pop (PredictionInput_model_dump payload) "features" VNone in
dict_merge data (or_empty_dict popped).

(** The row that [predict] stores, and the database after it. *)
Definition new_prediction (db : Store) (now : Z) (risk : string)
           (payload : PredictionInput) : Prediction.t :=
Prediction.mk (next_id (map Prediction.id (predictions db))) risk
              (PredictionInput_model_dump payload) now.

Definition store_after_predict (db : Store) (now : Z) (risk : string)
           (payload : PredictionInput) : Store :=
mkStore (models db) (predictions db ++ [new_prediction db now risk payload]).

(** A sample environment.  A fitted pipeline is stood for by a label;
    joblib writes the label's bytes and reads them back; the random forest
    scores 0.8 and the two boosted learners 0.9 each. *)
Definition sample_fit (gs : GridSearchCV) (X : DataFrame) (y : list value)
  : result (Fitted string) :=
match clf (estimator gs) with
| RandomForestClassifier _ =>
    Ok (mkFitted 0.8%float
          [("clf__max_depth", VNone); ("clf__n_estimators", VInt 100)]%string
          "rf"%string)
| XGBClassifier _ _ _ _ _ _ =>
    Ok (mkFitted 0.9%float
          [("clf__learning_rate", VFloat 0.1); ("clf__max_depth", VInt 3);
           ("clf__n_estimators", VInt 200)]%string
          "xgb"%string)
| LGBMClassifier _ _ _ =>
    Ok (mkFitted 0.9%float
          [("clf__learning_rate", VFloat 0.05); ("clf__max_depth", VInt 10);
           ("clf__n_estimators", VInt 400)]%string
          "lgbm"%string)
end.

Definition sample_runtime (installed : string -> bool) : Runtime string :=
mkRuntime installed
  (fun _ => false)
  sample_fit
  (fun e => Ok (list_byte_of_string e))
  (fun b => Ok (string_of_list_byte b))
  (fun e X => Ok (repeat "high"%string (nrows X))).

(** The same environment with a joblib that cannot read any artifact. *)
Definition unreadable_runtime : Runtime string :=
mkRuntime (fun _ => true)
  (fun _ => false)
  sample_fit
  (fun e => Ok (list_byte_of_string e))
  (fun b => Raise (LibraryError "invalid load key"))
  (fun e X => Ok (repeat "high"%string (nrows X))).

(** An environment in which every search ends with the score NaN. *)
Definition nan_runtime : Runtime string :=
mkRuntime (fun _ => true)
  (fun _ => false)
  (fun gs X y => Ok (mkFitted nan [] "unscored"%string))
  (fun e => Ok (list_byte_of_string e))
  (fun b => Ok (string_of_list_byte b))
  (fun e X => Ok (repeat "high"%string (nrows X))).

Definition everything_installed (m : string) : bool := true.

(** An environment with neither xgboost nor lightgbm. *)
Definition baseline_only (m : string) : bool :=
negb (String.eqb m "xgboost" || String.eqb m "lightgbm").

Definition sample_request : TrainRequest :=
mkTrainRequest
  [ mkTrainRecord 500 "general" (Some [("k", VStr "v")]%string) low;
    mkTrainRecord 20000 "wire" None high ]
  (Some "f1_macro"%string) (Some 3%Z).

Definition sample_store : Store :=
mkStore [artifact_at 1 10 true; artifact_at 2 30 true; artifact_at 4 20 false] [].

End Props.

(* ===================================================================== *)
(** ** main.py: the listing routes *)
(* ===================================================================== *)

Module Listing.
Import Py Schemas Database.

(** [class PredictionRecord(BaseModel)]; [created_at] as in
    [PredictionResponse]. *)
Module PredictionRecord.
Record t : Type := mk {
  id : Z;
  risk_level : RiskLevel;
  created_at : Z;
  input_data : option dict
}.
End PredictionRecord.

(** [... .order_by(Prediction.created_at.desc())]; rows of one timestamp
    stay in table order here. *)
Fixpoint insert_newest_first (r : Prediction.t) (l : list Prediction.t)
  : list Prediction.t :=
match l with
| [] => [r]
| x :: rest =>
    if (Prediction.created_at x <=? Prediction.created_at r)%Z
    then r :: x :: rest
    else x :: insert_newest_first r rest
end.

Definition predictions_newest_first (l : list Prediction.t) : list Prediction.t :=
fold_right insert_newest_first [] l.

(** One dict of the returned list, checked against [PredictionRecord]: the
    risk level has to be one of the three literals. *)
Definition as_PredictionRecord (r : Prediction.t) : result PredictionRecord.t :=
match RiskLevel_of_str (Prediction.risk_level r) with
| Some level =>
    Ok (PredictionRecord.mk (Prediction.id r) level (Prediction.created_at r)
                            (Some (Prediction.input_data r)))
| None => Raise ValidationError
end.

(** [response_model=List[PredictionRecord]]: every item is checked. *)
Fixpoint validate_records (rows : list Prediction.t)
  : result (list PredictionRecord.t) :=
match rows with
| [] => Ok []
| r :: rest =>
    item <- as_PredictionRecord r ;;
    items <- validate_records rest ;;
    Ok (item :: items)
end.

(** [def list_predictions(db: Session = Depends(get_db))] *)
Definition list_predictions (db : Session) : result (list PredictionRecord.t) :=
let rows := firstn 100 (predictions_newest_first (predictions (tx db))) in
validate_records rows.

(** One dict of the list that [list_models] returns. *)
Module ModelSummary.
Record t : Type := mk {
  id : Z;
  name : string;
  created_at : Z;
  metrics : dict;
  active : bool
}.
End ModelSummary.

Definition as_ModelSummary (m : ModelArtifact.t) : ModelSummary.t :=
ModelSummary.mk (ModelArtifact.id m) (ModelArtifact.name m)
                (ModelArtifact.created_at m) (ModelArtifact.metrics m)
                (ModelArtifact.active m).

(** [def list_models(db: Session = Depends(get_db))] *)
Definition list_models (db : Session) : list ModelSummary.t :=
let rows := order_by_created_at_desc (models (tx db)) in
map as_ModelSummary rows.

End Listing.

(* ===================================================================== *)
(** ** database.py and main.py: looking up and deleting a "patient" *)
(* ===================================================================== *)

Module Patients.
Import Py Schemas Database.

(** [def get_patient_by_id(db, patient_id: int) -> Prediction | None]: the
    query is on the predictions table.  This is the lookup for a key that
    SQLite can bind, that is a key in the signed 64-bit range (every stored
    key is one); for a key outside it the driver raises before any lookup,
    and the properties of an absent key are stated for the range only. *)
Definition get_patient_by_id (db : Session) (patient_id : Z) : option Prediction.t :=
find (fun r => Z.eqb (Prediction.id r) patient_id) (predictions (tx db)).

(** [db.delete(obj)] for a [Prediction]: the row with the object's primary
    key leaves the table (the [DELETE] goes out with the next flush, and
    nothing reads the table before it). *)
Definition db_delete_prediction (db : Session) (obj : Prediction.t) : Session :=
mkSession (committed db)
  (mkStore (models (tx db))
     (filter (fun r => negb (Z.eqb (Prediction.id r) (Prediction.id obj)))
             (predictions (tx db))))
  (new db) (identity_map db) (history db).

(** [def delete_patient(db, patient_id: int) -> bool] *)
Definition delete_patient (now : Z) (db : Session) (patient_id : Z) : bool * Session :=
let patient := get_patient_by_id db patient_id in
match patient with
| Some patient =>
    let db := db_delete_prediction db patient in
    let db := db_commit now db in
    (true, db)
| None => (false, db)
end.

(** What a route gives back: a value, or [raise HTTPException(...)]. *)
Inductive http (A : Type) : Type :=
| Returned (a : A)
| HTTPException (status_code : Z) (detail : string).

Arguments Returned {A} a.
Arguments HTTPException {A} status_code detail.

(** [class DeleteResponse(BaseModel)] *)
Record DeleteResponse : Type := mkDeleteResponse {
  success : bool;
  message : string
}.

(** [def delete_patient_data(patient_id: int, db: Session = Depends(get_db))] *)
Definition delete_patient_data (now : Z) (patient_id : Z) (db : Session)
  : http DeleteResponse * Session :=
let '(success, db) := delete_patient now db patient_id in
if negb success
then (HTTPException 404 "Patient not found", db)
else (Returned (mkDeleteResponse true "Patient deleted successfully"), db).

(** The route under [get_db]: one session per request. *)
Definition post_delete_patient (now : Z) (patient_id : Z) (db : Store)
  : http DeleteResponse * Store :=
let '(r, s) := delete_patient_data now patient_id (open_session db) in
(r, close_session s).

End Patients.

(* ===================================================================== *)
(** ** main.py: the security headers middleware *)
(* ===================================================================== *)

Module Middleware.

(** The raw header list of a response: names and values in order. *)
Definition headers : Type := list (string * string).

(** [c.lower()] on an ASCII letter. *)
Definition lower_ascii (c : ascii) : ascii :=
let n := nat_of_ascii c in
if (65 <=? n)%nat && (n <=? 90)%nat then ascii_of_nat (n + 32) else c.

(** [key.lower()] for a header name. *)
Fixpoint lower (s : string) : string :=
match s with
| EmptyString => EmptyString
| String c rest => String (lower_ascii c) (lower rest)
end.

(** [response.headers.setdefault(key, value)]: the name is lowercased and
    looked up among the raw names; a header that is there is left alone, one
    that is not is appended. *)
Definition setdefault (h : headers) (key value : string) : headers :=
let set_key := lower key in
if existsb (fun item => String.eqb (fst item) set_key) h
then h
else h ++ [(set_key, value)].

(** [async def set_security_headers(request, call_next)], on the headers of
    the response that [call_next] produced. *)
Definition set_security_headers (response_headers : headers) : headers :=
let h := response_headers in
let h := setdefault h "X-Content-Type-Options" "nosniff" in
let h := setdefault h "X-Frame-Options" "DENY" in
let h := setdefault h "Referrer-Policy" "no-referrer" in
let h := setdefault h "X-XSS-Protection" "0" in
h.

End Middleware.

(* ===================================================================== *)
(** ** main.py: the CORS origins *)
(* ===================================================================== *)

Module Cors.

(** [c.isspace()] for a character below U+0100 (a string here is a sequence
    of such characters): tab to carriage return, the four separators 0x1c to
    0x1f, the space, NEL and the no-break space. *)
Definition isspace (c : ascii) : bool :=
let n := nat_of_ascii c in
((9 <=? n)%nat && (n <=? 13)%nat) || ((28 <=? n)%nat && (n <=? 31)%nat)
|| (n =? 32)%nat || (n =? 133)%nat || (n =? 160)%nat.

(** [s.lstrip()] *)
Fixpoint lstrip (s : string) : string :=
match s with
| EmptyString => EmptyString
| String c rest => if isspace c then lstrip rest else s
end.

(** [s.rstrip()] *)
Fixpoint rstrip (s : string) : string :=
match s with
| EmptyString => EmptyString
| String c rest =>
    match rstrip rest with
    | EmptyString => if isspace c then EmptyString else String c EmptyString
    | kept => String c kept
    end
end.

(** [s.strip()] *)
Definition strip (s : string) : string := rstrip (lstrip s).

(** [s.split(",")]: one more part than there are commas. *)
Fixpoint split_comma (s : string) : list string :=
match s with
| EmptyString => [EmptyString]
| String c rest =>
    if Ascii.eqb c ","%char then EmptyString :: split_comma rest
    else match split_comma rest with
         | part :: parts => String c part :: parts
         | [] => [String c EmptyString]
         end
end.

(** The truth value of a string: it is not empty. *)
Definition nonempty (s : string) : bool :=
match s with
| EmptyString => false
| String _ _ => true
end.

(** [origins_env = os.environ.get("SEKOU_CORS_ORIGINS", "*")]
    [allow_origins = [o.strip() for o in origins_env.split(",") if o.strip()]] *)
Definition allow_origins (SEKOU_CORS_ORIGINS : option string) : list string :=
let origins_env :=
  match SEKOU_CORS_ORIGINS with
  | Some v => v
  | None => "*"%string
  end in
map strip (filter (fun o => nonempty (strip o)) (split_comma origins_env)).

End Cors.

(* ===================================================================== *)
(** ** Notions used to state the further properties *)
(* ===================================================================== *)

Module MoreProps.
Import Py Schemas Rules Pandas ModelUtils Database Main Props Listing Patients.

(** The keys that SQLite can bind to an [INTEGER] column. *)
Definition int64 (z : Z) : Prop := (- 2 ^ 63 <= z < 2 ^ 63)%Z.

(** low < medium < high *)
Definition rank (r : RiskLevel) : nat :=
match r with
| low => 0
| medium => 1
| high => 2
end.

(** Every stored prediction carries one of the three level strings. *)
Definition risk_levels_valid (db : Store) : Prop :=
Forall (fun r => In (Prediction.risk_level r) ["low"; "medium"; "high"]%string)
       (predictions db).

(** Newest first, for predictions. *)
Definition prediction_newer_or_same (a b : Prediction.t) : Prop :=
(Prediction.created_at b <= Prediction.created_at a)%Z.

(** Newest first, for the records that [list_predictions] returns. *)
Definition record_newer_or_same (a b : PredictionRecord.t) : Prop :=
(PredictionRecord.created_at b <= PredictionRecord.created_at a)%Z.

(** Newest first, for the summaries that [list_models] returns. *)
Definition summary_newer_or_same (a b : ModelSummary.t) : Prop :=
(ModelSummary.created_at b <= ModelSummary.created_at a)%Z.

(** An item of the answer and the row it lists. *)
Definition lists_row (item : PredictionRecord.t) (row : Prediction.t) : Prop :=
PredictionRecord.id item = Prediction.id row /\
RiskLevel_str (PredictionRecord.risk_level item) = Prediction.risk_level row /\
PredictionRecord.created_at item = Prediction.created_at row /\
PredictionRecord.input_data item = Some (Prediction.input_data row).

(** The name under which [train_select_serialize] registers a learner. *)
Definition classifier_name (c : Classifier) : string :=
match c with
| RandomForestClassifier _ => "RandomForest"
| XGBClassifier _ _ _ _ _ _ => "XGBoost"
| LGBMClassifier _ _ _ => "LightGBM"
end.

(** The four headers of the middleware, as raw names. *)
Definition security_header_names : list string :=
["x-content-type-options"; "x-frame-options"; "referrer-policy";
 "x-xss-protection"]%string.

(** The first value stored under a raw header name. *)
Definition header_value (h : Middleware.headers) (name : string) : option string :=
match find (fun item => String.eqb (fst item) name) h with
| Some item => Some (snd item)
| None => None
end.

(** The characters of a string, its first and its last. *)
Definition chars (s : string) : list ascii := list_ascii_of_string s.

Definition first_char (s : string) : option ascii := hd_error (chars s).

Definition last_char (s : string) : option ascii := hd_error (rev (chars s)).

(** A sample prediction row. *)
Definition prediction_at (i t : Z) (risk : string) : Prediction.t :=
Prediction.mk i risk [] t.

Definition sample_predictions : Store :=
mkStore [] [prediction_at 1 10 "low"; prediction_at 2 30 "high";
            prediction_at 3 20 "medium"].

(** An environment whose pandas types a column as numeric when every cell
    of the single selected column is a number. *)
Definition numeric_cell (v : value) : bool :=
match v with
| VInt _ | VFloat _ => true
| _ => false
end.

Definition typed_runtime : Runtime string :=
mkRuntime (fun _ => true)
  (fun sel => match sel with
              | [cells] => forallb numeric_cell cells
              | _ => false
              end)
  sample_fit
  (fun e => Ok (list_byte_of_string e))
  (fun b => Ok (string_of_list_byte b))
  (fun e X => Ok (repeat "high"%string (nrows X))).

Definition sample_triage : TriageInput :=
mkTriageInput None 72 female true true false None.

End MoreProps.

(* ===================================================================== *)
(** ** The order of binary64 comparisons *)
(* ===================================================================== *)

Section SpecFloatOrder.

Lemma SFcompare_swap x y c :
  SFcompare x y = Some c -> SFcompare y x = Some (CompOpp c).
Proof.
  destruct x as [sx|sx| |sx mx ex], y as [sy|sy| |sy my ey]; simpl;
    try discriminate; intros H; injection H as <-;
    try (destruct sx); try (destruct sy); try reflexivity.
  all: f_equal.
  all: rewrite (Z.compare_antisym ex ey).
  all: destruct (ex ?= ey)%Z eqn:E; simpl; try reflexivity.
  all: change (PosDef.Pos.compare_cont Eq) with Pos.compare.
  all: rewrite (Pos.compare_antisym mx my).
  all: try rewrite CompOpp_involutive; try reflexivity.
Qed.

(** Exponent first, then mantissa: the order of two positive finite floats. *)
Lemma lex_lt_le_trans (e1 e2 e3 : Z) (m1 m2 m3 : positive) :
  match (e1 ?= e2)%Z with Eq => (m1 ?= m2)%positive | c => c end = Lt ->
  match (e2 ?= e3)%Z with Eq => (m2 ?= m3)%positive | c => c end <> Gt ->
  match (e1 ?= e3)%Z with Eq => (m1 ?= m3)%positive | c => c end = Lt.
Proof.
  destruct (Z.compare_spec e1 e2), (Z.compare_spec e2 e3), (Z.compare_spec e1 e3);
    subst; try lia; try congruence.
  destruct (Pos.compare_spec m1 m2), (Pos.compare_spec m2 m3), (Pos.compare_spec m1 m3);
    subst; try lia; congruence.
Qed.

(** The same for two negative finite floats, where the order is reversed. *)
Lemma lex_gt_ge_trans (e1 e2 e3 : Z) (m1 m2 m3 : positive) :
  match (e1 ?= e2)%Z with
  | Eq => CompOpp (m1 ?= m2)%positive | Lt => Gt | Gt => Lt end = Lt ->
  match (e2 ?= e3)%Z with
  | Eq => CompOpp (m2 ?= m3)%positive | Lt => Gt | Gt => Lt end <> Gt ->
  match (e1 ?= e3)%Z with
  | Eq => CompOpp (m1 ?= m3)%positive | Lt => Gt | Gt => Lt end = Lt.
Proof.
  destruct (Z.compare_spec e1 e2), (Z.compare_spec e2 e3), (Z.compare_spec e1 e3);
    subst; try lia; try congruence.
  destruct (Pos.compare_spec m1 m2), (Pos.compare_spec m2 m3), (Pos.compare_spec m1 m3);
    subst; simpl; try lia; congruence.
Qed.

Lemma SFcompare_lt_le_trans x y z c :
  SFcompare x y = Some Lt ->
  SFcompare y z = Some c -> c <> Gt ->
  SFcompare x z = Some Lt.
Proof.
  destruct x as [sx|sx| |sx mx ex], y as [sy|sy| |sy my ey], z as [sz|sz| |sz mz ez];
    simpl; try discriminate;
    try (destruct sx); try (destruct sy); try (destruct sz);
    try discriminate; try reflexivity;
    intros H1 H2 H3; injection H2 as <-; try congruence.
  all: injection H1 as H1; f_equal.
  all: change (PosDef.Pos.compare_cont Eq) with Pos.compare in *.
  - eapply lex_gt_ge_trans; eassumption.
  - eapply lex_lt_le_trans; eassumption.
Qed.

End SpecFloatOrder.

Section PyFloatOrder.
Local Open Scope float_scope.

Lemma ltb_leb_trans x y z :
  (x <? y) = true -> (y <=? z) = true -> (x <? z) = true.
Proof.
  rewrite !ltb_spec, leb_spec. unfold SFltb, SFleb.
  destruct (SFcompare (Prim2SF x) (Prim2SF y)) as [[]|] eqn:E1; try discriminate.
  destruct (SFcompare (Prim2SF y) (Prim2SF z)) as [c|] eqn:E2; try discriminate.
  intros _ H.
  assert (E3 : SFcompare (Prim2SF x) (Prim2SF z) = Some Lt)
    by (eapply SFcompare_lt_le_trans; eauto; destruct c; congruence).
  now rewrite E3.
Qed.

Lemma ltb_leb x y : (x <? y) = true -> (x <=? y) = true.
Proof.
  rewrite ltb_spec, leb_spec. unfold SFltb, SFleb.
  destruct (SFcompare (Prim2SF x) (Prim2SF y)) as [[]|]; congruence.
Qed.

Lemma ltb_trans x y z : (x <? y) = true -> (y <? z) = true -> (x <? z) = true.
Proof. intros H1 H2. eapply ltb_leb_trans; eauto using ltb_leb. Qed.

Lemma ltb_not_leb x y : (x <? y) = true -> (y <=? x) = false.
Proof.
  rewrite ltb_spec, leb_spec. unfold SFltb, SFleb.
  destruct (SFcompare (Prim2SF x) (Prim2SF y)) as [[]|] eqn:E; try discriminate.
  apply SFcompare_swap in E. now rewrite E.
Qed.

(** A float that compares to something is not NaN, so it compares to itself. *)
Lemma leb_refl_of_leb x y :
  (x <=? y) = true -> (x <=? x) = true /\ (y <=? y) = true.
Proof.
  rewrite !leb_spec. unfold SFleb.
  destruct (Prim2SF x) as [sx|sx| |sx mx ex], (Prim2SF y) as [sy|sy| |sy my ey];
    simpl in *; try discriminate;
    try destruct sx; try destruct sy; try (split; reflexivity); intros _.
  all: rewrite !Z.compare_refl;
    change (PosDef.Pos.compare_cont Eq) with Pos.compare;
    rewrite !Pos.compare_refl; split; reflexivity.
Qed.

(** Away from NaN the order is total. *)
Lemma not_leb_ltb x y :
  (x <=? x) = true -> (y <=? y) = true -> (x <=? y) = false -> (y <? x) = true.
Proof.
  rewrite !ltb_spec, !leb_spec. unfold SFltb, SFleb.
  destruct (SFcompare (Prim2SF x) (Prim2SF y)) as [c|] eqn:E.
  - apply SFcompare_swap in E. rewrite E. destruct c; simpl; congruence.
  - destruct (Prim2SF x) as [sx|sx| |sx mx ex], (Prim2SF y) as [sy|sy| |sy my ey];
      simpl in *; discriminate.
Qed.

Lemma ltb_irrefl x : (x <? x) = false.
Proof.
destruct (x <? x) eqn:E; [|reflexivity].
pose proof (ltb_leb E) as L. pose proof (ltb_not_leb E) as N. congruence.
Qed.

Lemma ltb_asym x y : (x <? y) = true -> (y <? x) = false.
Proof.
intros H. destruct (y <? x) eqn:E; [|reflexivity].
pose proof (ltb_trans H E) as T. rewrite ltb_irrefl in T. discriminate.
Qed.

End PyFloatOrder.

(* ===================================================================== *)
(** ** The rule engine *)
(* ===================================================================== *)

Section RuleEngine.
Import Schemas Rules Props.
Local Open Scope float_scope.

Example simple_risk_model_1500 c f :
  simple_risk_model (mkPredictionInput 1500 c f) = medium.
Proof. reflexivity. Qed.

Example simple_risk_model_999 c f :
  simple_risk_model (mkPredictionInput 999.5 c f) = low.
Proof. reflexivity. Qed.

Example simple_risk_model_9999_999 c f :
  simple_risk_model (mkPredictionInput 9999.999 c f) = medium.
Proof. reflexivity. Qed.

Example simple_risk_model_infinity c f :
  simple_risk_model (mkPredictionInput infinity c f) = high.
Proof. reflexivity. Qed.

(** C2: for a validated input (amount >= 0, so not NaN), [simple_risk_model]
    returns high when amount >= 10000, medium when 1000 <= amount < 10000 and
    low when amount < 1000; exactly one of the three conditions holds of
    every such amount; 1000 is medium and 10000 is high. *)
Theorem simple_risk_model_tiers (payload : PredictionInput) :
  PredictionInput_valid payload ->
  let a := amount payload in
  (PyFloat.ge a 10000 = true -> simple_risk_model payload = high) /\
  (PyFloat.ge a 1000 = true -> PyFloat.lt a 10000 = true ->
   simple_risk_model payload = medium) /\
  (PyFloat.lt a 1000 = true -> simple_risk_model payload = low) /\
  exactly_one (PyFloat.ge a 10000)
              (PyFloat.ge a 1000 && PyFloat.lt a 10000)
              (PyFloat.lt a 1000) = true /\
  (forall c f, simple_risk_model (mkPredictionInput 1000 c f) = medium) /\
  (forall c f, simple_risk_model (mkPredictionInput 10000 c f) = high).
Proof.
  intros [Hge _] a. fold a in Hge.
  unfold simple_risk_model, PyFloat.ge, PyFloat.lt in *. fold a.
  apply leb_refl_of_leb in Hge. destruct Hge as [_ Ha].
  assert (K1 : (1000 <=? 1000) = true) by reflexivity.
  assert (K2 : (10000 <=? 10000) = true) by reflexivity.
  assert (K12 : (1000 <=? 10000) = true) by reflexivity.
  destruct (10000 <=? a) eqn:E1; destruct (1000 <=? a) eqn:E2.
  - pose proof (@ltb_not_leb a 10000) as N1. pose proof (@ltb_not_leb a 1000) as N2.
    destruct (a <? 10000); [specialize (N1 eq_refl); congruence|].
    destruct (a <? 1000); [specialize (N2 eq_refl); congruence|].
    repeat split; intros; try reflexivity; discriminate.
  - (* 10000 <= a but not 1000 <= a: impossible *)
    exfalso. pose proof (@not_leb_ltb 1000 a K1 Ha E2) as L.
    pose proof (@ltb_leb_trans a 1000 10000 L K12) as L'.
    apply ltb_not_leb in L'. congruence.
  - pose proof (@not_leb_ltb 10000 a K2 Ha E1) as L. rewrite L.
    pose proof (@ltb_not_leb a 1000) as N2.
    destruct (a <? 1000); [specialize (N2 eq_refl); congruence|].
    repeat split; intros; try reflexivity; discriminate.
  - pose proof (@not_leb_ltb 10000 a K2 Ha E1) as L. rewrite L.
    pose proof (@not_leb_ltb 1000 a K1 Ha E2) as L2. rewrite L2.
    repeat split; intros; try reflexivity; discriminate.
Qed.

Lemma simple_risk_model_tiers_witness :
  PredictionInput_valid (mkPredictionInput 1500 "general" None) /\
  simple_risk_model (mkPredictionInput 1500 "general" None) = medium.
Proof.
  assert (V : PredictionInput_valid (mkPredictionInput 1500 "general" None))
    by (split; [reflexivity | discriminate]).
  split; [exact V|].
  apply (simple_risk_model_tiers V); reflexivity.
Defined.

Example triage_80_fever :
  triage_risk_model (mkTriageInput None 80 male true false false None) = high.
Proof. reflexivity. Qed.

Example triage_66 :
  triage_risk_model (mkTriageInput None 66 female false false false None) = medium.
Proof. reflexivity. Qed.

Example triage_30 :
  triage_risk_model (mkTriageInput None 30 other false false false None) = low.
Proof. reflexivity. Qed.

(** Every combination of the three flags and of the two age thresholds. *)
Ltac triage_cases p :=
  rewrite !Z.geb_leb;
  destruct (shortness_of_breath p), (fever p), (cough p);
  destruct (Z.leb_spec 75 (age p)); destruct (Z.leb_spec 65 (age p));
  simpl; intuition (discriminate || lia).

(** C3: [triage_risk_model] is the ordered, first-match-wins decision list
    (1) shortness of breath -> high, (2) age >= 75 and fever -> high,
    (3) age >= 65 or (fever and cough) -> medium, (4) otherwise low; each
    outcome is characterised by the rules above it failing; the input
    age 80 with fever only is high. *)
Theorem triage_risk_model_decision_list (p : TriageInput) :
  triage_risk_model p = classifyTriage_spec p /\
  (triage_risk_model p = high <->
     shortness_of_breath p = true \/ ((75 <= age p)%Z /\ fever p = true)) /\
  (triage_risk_model p = medium <->
     shortness_of_breath p = false /\
     ~ ((75 <= age p)%Z /\ fever p = true) /\
     ((65 <= age p)%Z \/ (fever p = true /\ cough p = true))) /\
  (triage_risk_model p = low <->
     shortness_of_breath p = false /\
     ~ ((75 <= age p)%Z /\ fever p = true) /\
     ~ ((65 <= age p)%Z \/ (fever p = true /\ cough p = true))) /\
  (forall n s a,
     triage_risk_model (mkTriageInput n 80 s true false false a) = high).
Proof.
  split; [|split; [|split; [|split]]].
  - unfold classifyTriage_spec, triage_rules, first_match, triage_risk_model.
    rewrite !Z.geb_leb. reflexivity.
  - unfold triage_risk_model. triage_cases p.
  - unfold triage_risk_model. triage_cases p.
  - unfold triage_risk_model. triage_cases p.
  - reflexivity.
Qed.

End RuleEngine.

(* ===================================================================== *)
(** ** The query for the active model *)
(* ===================================================================== *)

Section ActiveModelQuery.
Import Py Database Props.

Lemma insert_desc_perm r l : Permutation (r :: l) (insert_desc r l).
Proof.
induction l as [|x l IH]; simpl.
- apply Permutation_refl.
- destruct (ModelArtifact.created_at x <=? ModelArtifact.created_at r)%Z.
  + apply Permutation_refl.
  + eapply perm_trans; [apply perm_swap|]. now apply perm_skip.
Qed.

Lemma order_by_created_at_desc_perm l :
Permutation l (order_by_created_at_desc l).
Proof.
induction l as [|x l IH]; simpl.
- apply perm_nil.
- eapply perm_trans; [|apply insert_desc_perm]. now apply perm_skip.
Qed.

Lemma insert_desc_sorted r l :
StronglySorted newer_or_same l -> StronglySorted newer_or_same (insert_desc r l).
Proof.
induction 1 as [|x l Hs IH Hall]; simpl.
- repeat constructor.
- destruct (Z.leb_spec (ModelArtifact.created_at x) (ModelArtifact.created_at r)).
  + constructor; [now constructor|].
    constructor; [exact H|].
    eapply Forall_impl; [|exact Hall]. unfold newer_or_same. intros; lia.
  + constructor; [exact IH|].
    eapply Permutation_Forall; [apply insert_desc_perm|].
    constructor; [unfold newer_or_same; lia | exact Hall].
Qed.

Lemma order_by_created_at_desc_sorted l :
StronglySorted newer_or_same (order_by_created_at_desc l).
Proof.
induction l as [|x l IH]; simpl.
- constructor.
- now apply insert_desc_sorted.
Qed.

(** The first row of any newest-first arrangement of [l] is at least as new
    as every row of [l]. *)
Lemma first_of_sorted_is_latest l sorted m :
Permutation l sorted -> StronglySorted newer_or_same sorted ->
hd_error sorted = Some m ->
In m l /\ forall r, In r l -> newer_or_same m r.
Proof.
intros P S H. destruct sorted as [|x rest]; [discriminate|].
injection H as ->. split.
- eapply Permutation_in; [apply Permutation_sym; exact P|]. now left.
- intros r Hr. apply (Permutation_in _ P) in Hr.
  inversion S as [|? ? _ Hall]; subst. destruct Hr as [<-|Hr].
  + unfold newer_or_same; lia.
  + rewrite Forall_forall in Hall. now apply Hall.
Qed.

Example query_two_active :
query_active_model
  (open_session (mkStore [artifact_at 1 10 true; artifact_at 2 30 true;
                          artifact_at 3 40 false; artifact_at 4 20 true] []))
= Some (artifact_at 2 30 true).
Proof. reflexivity. Qed.

(** C10: with any number of active rows, [predict]'s query returns one row
    whenever an active row exists; that row is an active row of the table and
    no active row has a later [created_at]; any other newest-first ordering
    of the active rows starts with a row of the same timestamp, and with the
    same row when that timestamp belongs to one active row only. *)
Theorem query_active_model_latest (s : Session) :
let rows := models (tx s) in
let active_rows := filter ModelArtifact.active rows in
(active_rows <> [] -> exists m, query_active_model s = Some m) /\
(forall m, query_active_model s = Some m ->
   In m rows /\ ModelArtifact.active m = true /\
   (forall r, In r rows -> ModelArtifact.active r = true ->
      (ModelArtifact.created_at r <= ModelArtifact.created_at m)%Z) /\
   (forall sorted m',
      Permutation active_rows sorted ->
      StronglySorted newer_or_same sorted ->
      hd_error sorted = Some m' ->
      ModelArtifact.created_at m' = ModelArtifact.created_at m /\
      ((forall r, In r active_rows ->
          ModelArtifact.created_at r = ModelArtifact.created_at m -> r = m) ->
       m' = m))).
Proof.
intros rows active_rows. unfold query_active_model. fold rows. fold active_rows.
pose proof (order_by_created_at_desc_perm active_rows) as P.
pose proof (order_by_created_at_desc_sorted active_rows) as S.
split.
- intros Hne. destruct (order_by_created_at_desc active_rows) as [|m rest] eqn:E.
  + apply Permutation_sym, Permutation_nil in P. contradiction.
  + now exists m.
- intros m Hm.
  destruct (first_of_sorted_is_latest P S Hm) as [Hin Hmax].
  apply filter_In in Hin. destruct Hin as [Hin Hact].
  split; [exact Hin|]. split; [exact Hact|]. split.
  + intros r Hr Ha. apply Hmax. apply filter_In. now split.
  + intros sorted m' P' S' Hm'.
    destruct (first_of_sorted_is_latest P' S' Hm') as [Hin' Hmax'].
    assert (Heq : ModelArtifact.created_at m' = ModelArtifact.created_at m).
    { pose proof (Hmax m' Hin') as A.
      assert (In m active_rows) as Hm_in by (apply filter_In; now split).
      pose proof (Hmax' m Hm_in) as B. unfold newer_or_same in *. lia. }
    split; [exact Heq|]. intros Huniq. now apply Huniq.
Qed.

Lemma query_active_model_latest_witness :
query_active_model
  (open_session (mkStore [artifact_at 1 10 true; artifact_at 2 30 true;
                          artifact_at 4 20 true] []))
= Some (artifact_at 2 30 true) /\
(10 <= 30)%Z.
Proof.
split; [reflexivity|].
exact (proj1 (proj2 (proj2 (proj2 (query_active_model_latest
  (open_session (mkStore [artifact_at 1 10 true; artifact_at 2 30 true;
                          artifact_at 4 20 true] []))) _ eq_refl)))
  (artifact_at 1 10 true) (or_introl eq_refl) eq_refl).
Defined.

End ActiveModelQuery.

(* ===================================================================== *)
(** ** The session: keys, flush and refresh *)
(* ===================================================================== *)

Section SessionFacts.
Import Py Database.

Lemma fold_max_ge (i : Z) (l : list Z) :
(i <= fold_right Z.max i l)%Z /\ Forall (fun j => (j <= fold_right Z.max i l)%Z) l.
Proof.
induction l as [|x l [IH1 IH2]]; simpl.
- split; [lia | constructor].
- split; [lia|]. constructor; [lia|].
  eapply Forall_impl; [|exact IH2]. simpl. intros; lia.
Qed.

(** The key given on insert is above every key of the table. *)
Lemma next_id_above (ids : list Z) : Forall (fun j => (j < next_id ids)%Z) ids.
Proof.
destruct ids as [|i rest]; simpl; [constructor|].
destruct (fold_max_ge i rest) as [H1 H2].
constructor; [lia|]. eapply Forall_impl; [|exact H2]. simpl. intros; lia.
Qed.

Lemma next_id_fresh (ids : list Z) : ~ In (next_id ids) ids.
Proof.
intros H. pose proof (next_id_above ids) as A.
rewrite Forall_forall in A. specialize (A _ H). lia.
Qed.

(** Reading back by key the row that was appended under a fresh key. *)
Lemma find_appended (A : Type) (key : A -> Z) (l : list A) (x : A) :
~ In (key x) (map key l) ->
find (fun r => Z.eqb (key r) (key x)) (l ++ [x]) = Some x.
Proof.
induction l as [|y l IH]; simpl; intros H.
- now rewrite Z.eqb_refl.
- destruct (Z.eqb_spec (key y) (key x)) as [E|E].
  + exfalso. apply H. now left.
  + apply IH. intros K. apply H. now right.
Qed.

Lemma deactivate_is_set_active (r : ModelArtifact.t) :
(if ModelArtifact.active r then ModelArtifact.set_active false r else r)
= ModelArtifact.set_active false r.
Proof. destruct r as [i n t m a []]; reflexivity. Qed.

Lemma map_id_set_active (b : bool) (l : list ModelArtifact.t) :
map ModelArtifact.id (map (ModelArtifact.set_active b) l) = map ModelArtifact.id l.
Proof. rewrite map_map. apply map_ext. now intros []. Qed.

Lemma filter_active_set_inactive (l : list ModelArtifact.t) :
filter ModelArtifact.active (map (ModelArtifact.set_active false) l) = [].
Proof. induction l as [|r l IH]; simpl; auto. Qed.

End SessionFacts.

(* ===================================================================== *)
(** ** The selection loop of [train_select_serialize] *)
(* ===================================================================== *)

Section Selection.
Import Py Schemas Pandas ModelUtils Props.
Variable Estimator : Type.
Variable rt : Runtime Estimator.
Variable X_df : DataFrame.
Variable y : list value.

(** A loop that returns has fitted every candidate. *)
Lemma fit_candidates_all_fitted grids : forall best best',
fit_candidates rt X_df y grids best = Ok best' ->
forall j name gs, nth_error grids j = Some (name, gs) -> exists f, grid_search_fit rt gs X_df y = Ok f.
Proof.
induction grids as [|[n g] rest IH]; intros best best' H j name gs Hj.
- destruct j; discriminate.
- simpl in H. destruct (grid_search_fit rt g X_df y) as [f|e] eqn:E; [|discriminate].
  simpl in H. destruct j as [|j]; simpl in Hj.
  + injection Hj as <- <-. now exists f.
  + eapply IH; eauto.
Qed.

(** The loop invariant, read off at the end: either the running best was
    never replaced, and then no candidate scored above it; or it is the
    candidate at some position [i], which scored above the initial best, which
    no candidate outscores, and which every earlier candidate fails even to
    equal. *)
Lemma fit_candidates_selects grids : forall best best',
fit_candidates rt X_df y grids best = Ok best' ->
(best' = best /\
 forall j name gs f, nth_error grids j = Some (name, gs) -> grid_search_fit rt gs X_df y = Ok f ->
   PyFloat.gt (best_score_ f) (best_score best) = false)
\/
(exists i gs f,
   nth_error grids i = Some (best_name best', gs) /\ grid_search_fit rt gs X_df y = Ok f /\
   best' = mkBest (best_name best') (best_score_ f) (best_params_ f)
                  (Some (best_estimator_ f)) /\
   PyFloat.gt (best_score_ f) (best_score best) = true /\
   (forall j name gs' f', nth_error grids j = Some (name, gs') -> grid_search_fit rt gs' X_df y = Ok f' ->
      PyFloat.gt (best_score_ f') (best_score_ f) = false) /\
   (forall j name gs' f', (j < i)%nat ->
      nth_error grids j = Some (name, gs') -> grid_search_fit rt gs' X_df y = Ok f' ->
      PyFloat.ge (best_score_ f') (best_score_ f) = false)).
Proof.
unfold PyFloat.gt, PyFloat.ge.
induction grids as [|[n g] rest IH]; intros best best' H.
- simpl in H. injection H as <-. left. split; [reflexivity|].
  intros [|j] ? ? ? Hj; discriminate.
- simpl in H. destruct (grid_search_fit rt g X_df y) as [f0|e] eqn:E0; [|discriminate].
  simpl in H.
  destruct (PyFloat.gt (best_score_ f0) (best_score best)) eqn:G;
    unfold PyFloat.gt in G; apply IH in H; simpl in H.
  + (* the head replaces the running best *)
    destruct H as [[-> Hrest] | (i & gs & f & Hi & Hf & Hb & Hgt & Hall & Hbefore)].
    * right. exists 0%nat, g, f0. simpl. repeat split; auto.
      -- intros [|j] name gs' f' Hj Hf'; simpl in Hj.
         ++ injection Hj as <- <-. rewrite E0 in Hf'. injection Hf' as <-.
            apply ltb_irrefl.
         ++ eapply Hrest; eauto.
      -- intros j name gs' f' Hlt. lia.
    * right. exists (S i), gs, f. simpl. repeat split; auto.
      -- eapply ltb_trans; eauto.
      -- intros [|j] name gs' f' Hj Hf'; simpl in Hj.
         ++ injection Hj as <- <-. rewrite E0 in Hf'. injection Hf' as <-.
            now apply ltb_asym.
         ++ eapply Hall; eauto.
      -- intros [|j] name gs' f' Hlt Hj Hf'; simpl in Hj.
         ++ injection Hj as <- <-. rewrite E0 in Hf'. injection Hf' as <-.
            now apply ltb_not_leb.
         ++ eapply Hbefore; eauto. lia.
  + (* the head is not above the running best *)
    destruct H as [[-> Hrest] | (i & gs & f & Hi & Hf & Hb & Hgt & Hall & Hbefore)].
    * left. split; [reflexivity|].
      intros [|j] name gs' f' Hj Hf'; simpl in Hj.
      -- injection Hj as <- <-. rewrite E0 in Hf'. now injection Hf' as <-.
      -- eapply Hrest; eauto.
    * right. exists (S i), gs, f. simpl. repeat split; auto.
      -- intros [|j] name gs' f' Hj Hf'; simpl in Hj.
         ++ injection Hj as <- <-. rewrite E0 in Hf'. injection Hf' as <-.
            destruct (best_score_ f <? best_score_ f0)%float eqn:K; [|reflexivity].
            pose proof (ltb_trans Hgt K). congruence.
         ++ eapply Hall; eauto.
      -- intros [|j] name gs' f' Hlt Hj Hf'; simpl in Hj.
         ++ injection Hj as <- <-. rewrite E0 in Hf'. injection Hf' as <-.
            destruct (best_score_ f <=? best_score_ f0)%float eqn:K; [|reflexivity].
            pose proof (ltb_leb_trans Hgt K). congruence.
         ++ eapply Hbefore; eauto. lia.
Qed.

(** When every remaining fit returns, the loop returns, and it never drops
    an estimator it already holds. *)
Lemma fit_candidates_progress grids : forall best,
(forall name gs, In (name, gs) grids -> exists f, grid_search_fit rt gs X_df y = Ok f) ->
exists best',
  fit_candidates rt X_df y grids best = Ok best' /\
  (best_estimator best <> None -> best_estimator best' <> None).
Proof.
induction grids as [|[n g] rest IH]; intros best Hfits; simpl.
- exists best. split; [reflexivity | auto].
- destruct (Hfits n g (or_introl eq_refl)) as [f Hf]. rewrite Hf. simpl.
  match goal with
  | |- exists b, fit_candidates _ _ _ _ ?b1 = _ /\ _ =>
      destruct (IH b1) as (best' & Hb & Hkeep)
  end.
  { intros name gs Hin. apply (Hfits name gs). now right. }
  exists best'. split; [exact Hb|].
  intros Hsome. apply Hkeep.
  destruct (PyFloat.gt (best_score_ f) (best_score best)); simpl; [discriminate | exact Hsome].
Qed.

End Selection.

(* ===================================================================== *)
(** ** [train_select_serialize] as a whole *)
(* ===================================================================== *)

(** Case analysis on the first step of a chain of binds that succeeded. *)
Tactic Notation "bind_ok" hyp(H) "as" ident(x) ident(E) :=
match type of H with
| Py.bind ?c _ = Py.Ok _ =>
    destruct c as [x|] eqn:E; simpl in H; [|discriminate H]
end.

Section TrainSelectSerialize.
Import Py Schemas Pandas ModelUtils Props.
Variable Estimator : Type.
Variable rt : Runtime Estimator.

(** The steps behind a run of [train_select_serialize] that returned. *)
Lemma train_select_serialize_ok records scoring cv_folds bn bs bp art :
train_select_serialize rt records scoring cv_folds = Ok (bn, bs, bp, art) ->
exists X_df y pre grids best est,
  _records_to_dataframe rt records = Ok (X_df, y) /\
  _build_preprocessor rt X_df = Ok pre /\
  candidate_grids rt pre scoring cv_folds = Ok grids /\
  fit_candidates rt X_df y grids (initial_best Estimator) = Ok best /\
  best_estimator best = Some est /\
  joblib_dump rt est = Ok art /\
  bn = best_name best /\ bs = best_score best /\ bp = best_params best.
Proof.
unfold train_select_serialize. intros H.
bind_ok H as u1 E1. bind_ok H as u2 E2. bind_ok H as u3 E3.
bind_ok H as Xy EX. destruct Xy as [X_df y].
bind_ok H as ct Epre. bind_ok H as grids Eg. bind_ok H as best Ef.
destruct (best_estimator best) as [est|] eqn:Eb; [|discriminate].
bind_ok H as bytes Ed. injection H as <- <- <- <-.
exists X_df, y, ct, grids, best, est. repeat split; auto.
Qed.

(** The names of the candidates, in registration order. *)
Lemma candidate_grids_names pre scoring cv_folds grids :
candidate_grids rt pre scoring cv_folds = Ok grids ->
map fst grids =
  ["RandomForest"%string]
  ++ (if installed rt "xgboost" then ["XGBoost"%string] else [])
  ++ (if installed rt "lightgbm" then ["LightGBM"%string] else []).
Proof.
unfold candidate_grids, _grid_rf, _grid_xgb, _grid_lgbm, import_.
destruct (installed rt "sklearn"); simpl; [|discriminate].
destruct (installed rt "xgboost"), (installed rt "lightgbm"); simpl;
  intros H; injection H as <-; reflexivity.
Qed.

(** C4: when [train_select_serialize] returns, every candidate of the run
    was fitted, and the name, score, parameters and serialized pipeline it
    returns are those of one candidate, at some position [i] of the candidate
    list (RandomForest, then XGBoost, then LightGBM, as far as installed):
    no candidate scored strictly higher, and no candidate before position
    [i] scored as high, so an exact tie keeps the earlier candidate. *)
Theorem train_select_serialize_selects_best records scoring cv_folds bn bs bp art :
train_select_serialize rt records scoring cv_folds = Ok (bn, bs, bp, art) ->
exists X_df y pre grids i gs fitted,
  _records_to_dataframe rt records = Ok (X_df, y) /\
  _build_preprocessor rt X_df = Ok pre /\
  candidate_grids rt pre scoring cv_folds = Ok grids /\
  map fst grids =
    ["RandomForest"%string]
    ++ (if installed rt "xgboost" then ["XGBoost"%string] else [])
    ++ (if installed rt "lightgbm" then ["LightGBM"%string] else []) /\
  (forall j name gs', nth_error grids j = Some (name, gs') ->
     exists f', grid_search_fit rt gs' X_df y = Ok f') /\
  nth_error grids i = Some (bn, gs) /\
  grid_search_fit rt gs X_df y = Ok fitted /\
  bs = best_score_ fitted /\
  bp = best_params_ fitted /\
  joblib_dump rt (best_estimator_ fitted) = Ok art /\
  (forall j name gs' f', nth_error grids j = Some (name, gs') ->
     grid_search_fit rt gs' X_df y = Ok f' ->
     PyFloat.gt (best_score_ f') bs = false) /\
  (forall j name gs' f', (j < i)%nat ->
     nth_error grids j = Some (name, gs') ->
     grid_search_fit rt gs' X_df y = Ok f' ->
     PyFloat.ge (best_score_ f') bs = false).
Proof.
intros H.
apply train_select_serialize_ok in H.
destruct H as (X_df & y & pre & grids & best & est & HX & Hpre & Hg & Hfit & Hest & Hdump & -> & -> & ->).
pose proof (candidate_grids_names _ _ _ Hg) as Hnames.
pose proof (@fit_candidates_all_fitted _ _ _ _ _ _ _ Hfit) as Hallfit.
destruct (@fit_candidates_selects _ _ _ _ _ _ _ Hfit)
  as [[-> _] | (i & gs & f & Hi & Hf & Hb & _ & Hall & Hbefore)].
- discriminate Hest.
- destruct best as [n0 s0 p0 e0]. simpl in *.
  injection Hb as -> -> ->. injection Hest as <-.
  exists X_df, y, pre, grids, i, gs, f.
  repeat split; auto.
Qed.

(** [train_select_serialize] once its imports, the feature table, the
    preprocessor and the candidate list are known. *)
Lemma train_select_serialize_steps records scoring cv_folds X_df y pre grids :
installed rt "numpy" = true -> installed rt "sklearn" = true ->
installed rt "joblib" = true ->
_records_to_dataframe rt records = Ok (X_df, y) ->
_build_preprocessor rt X_df = Ok pre ->
candidate_grids rt pre scoring cv_folds = Ok grids ->
train_select_serialize rt records scoring cv_folds =
  (best <- fit_candidates rt X_df y grids (initial_best Estimator) ;;
   match best_estimator best with
   | None => Raise (RuntimeError "No estimator was trained successfully")
   | Some best_estimator =>
       artifact_bytes <- joblib_dump rt best_estimator ;;
       Ok (best_name best, best_score best, best_params best, artifact_bytes)
   end).
Proof.
intros Hnp Hsk Hjl HX Hpre Hg.
unfold train_select_serialize, import_.
rewrite Hnp, Hsk, Hjl. simpl. rewrite HX. simpl. rewrite Hpre. simpl.
rewrite Hg. reflexivity.
Qed.

(** C9: in every run that has scikit-learn and a feature table, the
    candidate list starts with RandomForest, whatever the state of xgboost
    and lightgbm; a learner that does not import yields [(None, {})] instead
    of an error and is left out, the others keep their order; RandomForest is
    fitted first (a failure of its fit is the failure of the run); and when
    the fits of the candidates that are present return, RandomForest's with
    a score above [-inf], and joblib can write the winner, training returns
    a result. *)
Theorem random_forest_always_candidate records scoring cv_folds X_df y :
installed rt "numpy" = true -> installed rt "sklearn" = true ->
installed rt "joblib" = true ->
_records_to_dataframe rt records = Ok (X_df, y) ->
(installed rt "xgboost" = false -> _grid_xgb rt = (None, [])) /\
(installed rt "lightgbm" = false -> _grid_lgbm rt = (None, [])) /\
exists pre rf_gs rest,
  _build_preprocessor rt X_df = Ok pre /\
  candidate_grids rt pre scoring cv_folds = Ok (("RandomForest"%string, rf_gs) :: rest) /\
  clf (estimator rf_gs) = RandomForestClassifier 42 /\
  map fst rest =
    (if installed rt "xgboost" then ["XGBoost"%string] else [])
    ++ (if installed rt "lightgbm" then ["LightGBM"%string] else []) /\
  (forall e, grid_search_fit rt rf_gs X_df y = Raise e ->
     train_select_serialize rt records scoring cv_folds = Raise e) /\
  (forall f,
     grid_search_fit rt rf_gs X_df y = Ok f ->
     PyFloat.gt (best_score_ f) PyFloat.neg_inf = true ->
     (forall name gs, In (name, gs) rest ->
        exists f', grid_search_fit rt gs X_df y = Ok f') ->
     (forall est, exists b, joblib_dump rt est = Ok b) ->
     exists bn bs bp art,
       train_select_serialize rt records scoring cv_folds = Ok (bn, bs, bp, art)).
Proof.
intros Hnp Hsk Hjl HX.
split; [|split].
- intros Hx. unfold _grid_xgb, import_. now rewrite Hx.
- intros Hl. unfold _grid_lgbm, import_. now rewrite Hl.
- assert (Hpd : installed rt "pandas" = true).
  { unfold _records_to_dataframe, import_ in HX.
    destruct (installed rt "pandas"); [reflexivity | discriminate]. }
  destruct (_build_preprocessor rt X_df) as [pre|e] eqn:Hpre.
  2:{ unfold _build_preprocessor, import_ in Hpre.
      rewrite Hpd, Hsk in Hpre. discriminate. }
  destruct (candidate_grids rt pre scoring cv_folds) as [grids|e] eqn:Hg.
  2:{ unfold candidate_grids, _grid_rf, import_ in Hg. rewrite Hsk in Hg.
      simpl in Hg. destruct (_grid_xgb rt) as [[?|] ?], (_grid_lgbm rt) as [[?|] ?];
        discriminate. }
  pose proof (candidate_grids_names _ _ _ Hg) as Hnames.
  pose proof (train_select_serialize_steps records scoring cv_folds Hnp Hsk Hjl HX Hpre Hg)
    as Hsteps.
  assert (Hhead : exists rf_gs rest,
             grids = ("RandomForest"%string, rf_gs) :: rest /\
             clf (estimator rf_gs) = RandomForestClassifier 42).
  { unfold candidate_grids, _grid_rf, import_ in Hg. rewrite Hsk in Hg. simpl in Hg.
    destruct (_grid_xgb rt) as [[?|] ?], (_grid_lgbm rt) as [[?|] ?];
      injection Hg as <-; simpl; eauto. }
  destruct Hhead as (rf_gs & rest & -> & Hclf).
  exists pre, rf_gs, rest.
  split; [reflexivity|]. split; [exact Hg|]. split; [exact Hclf|].
  split; [simpl in Hnames; now injection Hnames|]. split.
  + intros e He. rewrite Hsteps. simpl. now rewrite He.
  + intros f Hf Hgt Hrest Hdump. rewrite Hsteps. simpl. rewrite Hf. simpl.
    unfold initial_best at 1. simpl. rewrite Hgt.
    match goal with
    | |- context [fit_candidates rt X_df y rest ?b1] =>
        destruct (@fit_candidates_progress _ rt X_df y rest b1 Hrest)
          as (best' & Hb & Hkeep)
    end.
    rewrite Hb. simpl.
    destruct (best_estimator best') as [est|] eqn:Eb.
    * destruct (Hdump est) as [b Hbytes]. rewrite Hbytes. simpl. eauto.
    * exfalso. apply Hkeep; [discriminate | reflexivity].
Qed.

End TrainSelectSerialize.

(* ===================================================================== *)
(** ** /train and the stored artifacts *)
(* ===================================================================== *)

Section TrainHandler.
Import Py Schemas Pandas ModelUtils Database Main Props.
Variable Estimator : Type.
Variable rt : Runtime Estimator.

(** What [train] does once [train_select_serialize] has returned. *)
Lemma train_after_selection request now db bn bs bp art :
train_select_serialize rt (map TrainRecord_model_dump (records request))
                       (scoring request) (cv_folds request)
  = Ok (bn, bs, bp, art) ->
train rt request now (open_session db)
= (Ok (mkTrainResponse bn bs bp (ModelArtifact.id (new_artifact db now bn bs bp art))),
   session_after_train db now bn bs bp art).
Proof.
intros H. unfold train. rewrite H.
unfold update_active_false, db_add, db_commit, db_refresh_model. simpl.
rewrite (map_ext _ _ deactivate_is_set_active).
pose proof (@find_appended _ ModelArtifact.id
  (map (ModelArtifact.set_active false) (models db))
  (new_artifact db now bn bs bp art)) as F.
unfold session_after_train, store_after_train, new_artifact in *.
simpl in F. rewrite map_id_set_active in F. rewrite !map_id_set_active.
rewrite F by apply next_id_fresh. reflexivity.
Qed.

Local Abbreviation trained request :=
  (train_select_serialize rt (map TrainRecord_model_dump (records request))
                          (scoring request) (cv_folds request)).

(** C6: when training succeeds, [train] answers with the key of a row it
    has just inserted; the committed table is the old one with every row
    inactive, followed by that row; the rows with [active = True] are that row
    and nothing else; and the session has committed once, so the
    deactivation and the insertion became visible together. *)
Theorem train_activates_new_artifact request now db bn bs bp art :
trained request = Ok (bn, bs, bp, art) ->
let row := new_artifact db now bn bs bp art in
let final := store_after_train db now bn bs bp art in
let response := mkTrainResponse bn bs bp (ModelArtifact.id row) in
exists s',
  train rt request now (open_session db) = (Ok response, s') /\
  post_train rt request now db = (Ok response, final) /\
  committed s' = final /\
  history s' = [final] /\
  models final = map (ModelArtifact.set_active false) (models db) ++ [row] /\
  predictions final = predictions db /\
  filter ModelArtifact.active (models final) = [row] /\
  ModelArtifact.active row = true /\
  ~ In (ModelArtifact.id row) (map ModelArtifact.id (models db)).
Proof.
intros H row final response.
exists (session_after_train db now bn bs bp art).
pose proof (train_after_selection request now db H) as T.
split; [exact T|].
split; [unfold post_train, with_db; rewrite T; reflexivity|].
repeat split.
- unfold final, store_after_train. simpl.
  rewrite filter_app, filter_active_set_inactive. reflexivity.
- apply next_id_fresh.
Qed.

(** C5: [train_select_serialize] raises when, on the table and the
    candidate list of this run, no candidate's fit returns a score above the
    initial [-inf] (in particular when every fit raises); the error is
    [RuntimeError("No estimator was trained successfully")] when joblib
    imports and every fit of the run did return.  It also raises when there
    are no records, and when scikit-learn, which all three learners are built
    with, does not import.  Whatever it raises, [train] raises the same to
    its caller with the session and the database exactly as they were: no
    row added, no row deactivated, nothing committed; and [train] raises in
    no other way. *)
Theorem train_failure_keeps_store request now db :
(forall X_df y pre grids,
   _records_to_dataframe rt (map TrainRecord_model_dump (records request))
     = Ok (X_df, y) ->
   _build_preprocessor rt X_df = Ok pre ->
   candidate_grids rt pre (scoring request) (cv_folds request) = Ok grids ->
   (forall name gs f, In (name, gs) grids ->
      grid_search_fit rt gs X_df y = Ok f ->
      PyFloat.gt (best_score_ f) PyFloat.neg_inf = false) ->
   exists e,
     trained request = Raise e /\
     (installed rt "joblib" = true ->
      (forall name gs, In (name, gs) grids ->
         exists f, grid_search_fit rt gs X_df y = Ok f) ->
      e = RuntimeError "No estimator was trained successfully")) /\
(records request = [] -> exists e, trained request = Raise e) /\
(installed rt "sklearn" = false -> exists e, trained request = Raise e) /\
(forall e, trained request = Raise e ->
   train rt request now (open_session db) = (Raise e, open_session db) /\
   post_train rt request now db = (Raise e, db)) /\
(forall e s', train rt request now (open_session db) = (Raise e, s') ->
   trained request = Raise e /\ s' = open_session db /\
   committed s' = db /\ history s' = []).
Proof.
split; [|split; [|split; [|split]]].
- intros X_df y pre grids HX Hpre Hg Hnone.
  assert (Hnp : installed rt "numpy" = true).
  { unfold _records_to_dataframe, import_ in HX.
    destruct (installed rt "pandas"); simpl in HX; [|discriminate].
    destruct (installed rt "numpy"); [reflexivity | discriminate]. }
  assert (Hsk : installed rt "sklearn" = true).
  { unfold _build_preprocessor, import_ in Hpre.
    destruct (installed rt "pandas"); simpl in Hpre; [|discriminate].
    destruct (installed rt "sklearn"); [reflexivity | discriminate]. }
  destruct (installed rt "joblib") eqn:Hjl.
  + rewrite (train_select_serialize_steps rt _ _ _ Hnp Hsk Hjl HX Hpre Hg).
    destruct (fit_candidates rt X_df y grids (initial_best Estimator))
      as [best|e] eqn:Hfit; simpl.
    * destruct (@fit_candidates_selects _ _ _ _ _ _ _ Hfit)
        as [[-> _] | (i & gs & f & Hi & Hf & _ & Hgt & _)].
      -- simpl. eexists. split; [reflexivity | intros _ _; reflexivity].
      -- exfalso. simpl in Hgt.
         rewrite (Hnone _ gs f (nth_error_In _ _ Hi) Hf) in Hgt. discriminate.
    * exists e. split; [reflexivity|]. intros _ Hall. exfalso.
      destruct (@fit_candidates_progress _ rt X_df y grids
                  (initial_best Estimator) Hall) as (best' & Hb & _).
      congruence.
  + exists (ImportError "joblib"). split; [|discriminate].
    unfold train_select_serialize, import_. rewrite Hnp, Hsk, Hjl. reflexivity.
- intros Hempty. rewrite Hempty. simpl.
  unfold train_select_serialize, _records_to_dataframe, import_.
  destruct (installed rt "numpy"); simpl; [|eauto].
  destruct (installed rt "sklearn"); simpl; [|eauto].
  destruct (installed rt "joblib"); simpl; [|eauto].
  destruct (installed rt "pandas"); simpl; eauto.
- intros Hsk. unfold train_select_serialize, import_. rewrite Hsk.
  destruct (installed rt "numpy"); simpl; eauto.
- intros e H. unfold post_train, with_db, train. rewrite H. split; reflexivity.
- intros e s' H.
  destruct (trained request) as [[[[bn bs] bp] art]|e0] eqn:T.
  + rewrite (train_after_selection request now db T) in H. discriminate.
  + unfold train in H. rewrite T in H. injection H as <- <-. repeat split.
Qed.

End TrainHandler.

(* ===================================================================== *)
(** ** /predict: the model path and its fallback *)
(* ===================================================================== *)

Section PredictHandler.
Import Py Schemas Rules Pandas ModelUtils Database Main Props.
Variable Estimator : Type.
Variable rt : Runtime Estimator.

Lemma RiskLevel_of_str_str (r : RiskLevel) : RiskLevel_of_str (RiskLevel_str r) = Some r.
Proof. destruct r; reflexivity. Qed.

Lemma RiskLevel_of_str_Some (s : string) (r : RiskLevel) :
RiskLevel_of_str s = Some r -> s = RiskLevel_str r.
Proof.
unfold RiskLevel_of_str.
destruct (String.eqb_spec s "low"); [intros H; injection H as <-; assumption|].
destruct (String.eqb_spec s "medium"); [intros H; injection H as <-; assumption|].
destruct (String.eqb_spec s "high"); [intros H; injection H as <-; assumption|].
discriminate.
Qed.

Lemma RiskLevel_of_str_None (s : string) :
RiskLevel_of_str s = None <-> ~ In s ["low"; "medium"; "high"]%string.
Proof.
unfold RiskLevel_of_str. simpl.
destruct (String.eqb_spec s "low"); [split; [discriminate | intros H; exfalso; apply H; auto]|].
destruct (String.eqb_spec s "medium"); [split; [discriminate | intros H; exfalso; apply H; auto]|].
destruct (String.eqb_spec s "high"); [split; [discriminate | intros H; exfalso; apply H; auto]|].
split; [|reflexivity]. intros _ [H|[H|[H|[]]]]; congruence.
Qed.

(** The literal-set test of [predict] is the test of the literal type. *)
Lemma str_in_levels (s : string) :
str_in s ["low"; "medium"; "high"]%string =
match RiskLevel_of_str s with Some _ => true | None => false end.
Proof.
unfold str_in, RiskLevel_of_str. simpl.
destruct (String.eqb s "low"), (String.eqb s "medium"), (String.eqb s "high");
  reflexivity.
Qed.

Lemma model_prediction_steps payload m :
model_prediction rt payload m =
  (model <- load_model_from_bytes rt (ModelArtifact.artifact m) ;;
   _ <- import_ rt "pandas" ;;
   preds <- estimator_predict rt model (pd_DataFrame [inference_row payload]) ;;
   getitem preds 0).
Proof.
unfold model_prediction, inference_row. simpl.
destruct (load_model_from_bytes rt (ModelArtifact.artifact m)) as [model|]; simpl;
  [|reflexivity].
destruct (import_ rt "pandas"); simpl; [|reflexivity].
destruct (estimator_predict rt model _) as [preds|]; simpl; [|reflexivity].
destruct (getitem preds 0); reflexivity.
Qed.

(** The risk string of [predict] always names a level: the model's label
    when the model path returns one of the three, the rule engine's level in
    every other case. *)
Lemma predict_risk_level payload active_model :
exists r,
  predict_risk rt payload active_model = RiskLevel_str r /\
  r = match active_model with
      | None => simple_risk_model payload
      | Some m =>
          match model_prediction rt payload m with
          | Ok label =>
              match RiskLevel_of_str label with
              | Some l => l
              | None => simple_risk_model payload
              end
          | Raise _ => simple_risk_model payload
          end
      end.
Proof.
unfold predict_risk. destruct active_model as [m|]; [|simpl; eauto].
destruct (model_prediction rt payload m) as [label|e]; cbn [bind try_except];
  [|eauto].
rewrite str_in_levels.
destruct (RiskLevel_of_str label) as [l|] eqn:E; cbn [negb try_except]; [|eauto].
exists l. split; [now apply RiskLevel_of_str_Some | reflexivity].
Qed.

(** What [predict] does once the risk string is known to name a level. *)
Lemma predict_after_risk payload now db r :
predict_risk rt payload (query_active_model (open_session db)) = RiskLevel_str r ->
let row := new_prediction db now (RiskLevel_str r) payload in
let final := store_after_predict db now (RiskLevel_str r) payload in
predict rt payload now (open_session db)
= (Ok (mkPredictionResponse r (Prediction.id row) now),
   mkSession final final [] [PredictionKey (Prediction.id row)] [final]).
Proof.
intros H row final. unfold predict. rewrite H.
unfold db_add, db_commit, db_refresh_prediction. simpl.
pose proof (@find_appended _ Prediction.id (predictions db) row) as F.
unfold row, new_prediction in F. simpl in F.
rewrite F by apply next_id_fresh.
unfold PredictionResponse_new. rewrite RiskLevel_of_str_str. reflexivity.
Qed.

(** C1: for every payload and every database, [predict] returns a response
    (it does not raise), whose risk level is one of the three levels and is
    what the stored prediction row carries.  With no active artifact the
    level is the rule engine's.  With one, it is the rule engine's whenever
    the artifact does not load, whenever the loaded model's prediction raises,
    whenever the model path raises anything at all, and whenever the label is
    not one of low, medium, high; and it is the model's label otherwise. *)
Theorem predict_total_with_fallback payload now db :
exists resp s' row,
  predict rt payload now (open_session db) = (Ok resp, s') /\
  predictions (committed s') = predictions db ++ [row] /\
  Prediction.risk_level row = RiskLevel_str (risk_level resp) /\
  Prediction.id row = id resp /\
  (query_active_model (open_session db) = None ->
     risk_level resp = simple_risk_model payload) /\
  (forall m, query_active_model (open_session db) = Some m ->
     (forall e, load_model_from_bytes rt (ModelArtifact.artifact m) = Raise e ->
        risk_level resp = simple_risk_model payload) /\
     (forall model e,
        load_model_from_bytes rt (ModelArtifact.artifact m) = Ok model ->
        estimator_predict rt model (pd_DataFrame [inference_row payload]) = Raise e ->
        risk_level resp = simple_risk_model payload) /\
     (forall e, model_prediction rt payload m = Raise e ->
        risk_level resp = simple_risk_model payload) /\
     (forall label, model_prediction rt payload m = Ok label ->
        ~ In label ["low"; "medium"; "high"]%string ->
        risk_level resp = simple_risk_model payload) /\
     (forall label, model_prediction rt payload m = Ok label ->
        In label ["low"; "medium"; "high"]%string ->
        RiskLevel_str (risk_level resp) = label)).
Proof.
destruct (predict_risk_level payload (query_active_model (open_session db)))
  as (r & Hrisk & Hr).
pose proof (predict_after_risk payload now db r Hrisk) as P. simpl in P.
eexists _, _, (new_prediction db now (RiskLevel_str r) payload).
split; [exact P|]. simpl.
split; [reflexivity|]. split; [reflexivity|]. split; [reflexivity|].
split.
- intros Hnone. rewrite Hnone in Hr. exact Hr.
- intros m Hm. rewrite Hm in Hr. repeat split.
  + intros e He. rewrite model_prediction_steps, He in Hr. exact Hr.
  + intros model e Hl He. rewrite model_prediction_steps, Hl in Hr. simpl in Hr.
    destruct (import_ rt "pandas"); simpl in Hr; [|exact Hr].
    rewrite He in Hr. exact Hr.
  + intros e He. rewrite He in Hr. exact Hr.
  + intros label Hl Hnot. rewrite Hl in Hr.
    apply RiskLevel_of_str_None in Hnot. rewrite Hnot in Hr. exact Hr.
  + intros label Hl Hin. rewrite Hl in Hr.
    destruct (RiskLevel_of_str label) as [l|] eqn:E.
    * subst r. symmetry. now apply RiskLevel_of_str_Some.
    * apply RiskLevel_of_str_None in E. contradiction.
Qed.

End PredictHandler.

(* ===================================================================== *)
(** ** The feature assembler: one row at inference, a table at training *)
(* ===================================================================== *)

Section FeatureAssembler.
Import Py Schemas Pandas ModelUtils Main Props.

Lemma dict_get_set d k v k' :
dict_get (dict_set d k v) k' = if String.eqb k k' then Some v else dict_get d k'.
Proof.
induction d as [|[k0 v0] d IH]; simpl.
- reflexivity.
- destruct (String.eqb_spec k0 k) as [->|Hk]; simpl.
  + destruct (String.eqb k k'); reflexivity.
  + rewrite IH. destruct (String.eqb_spec k0 k') as [->|Hk'].
    * destruct (String.eqb_spec k k'); congruence.
    * reflexivity.
Qed.

Lemma dict_keys_set d k v :
dict_keys (dict_set d k v) =
  if dict_contains d k then dict_keys d else (dict_keys d ++ [k])%list.
Proof.
unfold dict_keys, dict_contains.
induction d as [|[k0 v0] d IH]; simpl.
- reflexivity.
- destruct (String.eqb k0 k); simpl; [reflexivity|].
  rewrite IH. destruct (existsb _ d); reflexivity.
Qed.

Lemma dict_contains_In d k : dict_contains d k = true <-> In k (dict_keys d).
Proof.
unfold dict_contains, dict_keys. rewrite existsb_exists, in_map_iff.
split; intros [[k0 v0] [H1 H2]]; exists (k0, v0); simpl in *.
- apply String.eqb_eq in H2. auto.
- subst. split; [assumption | apply String.eqb_refl].
Qed.

Lemma dict_set_NoDup d k v : NoDup (dict_keys d) -> NoDup (dict_keys (dict_set d k v)).
Proof.
intros H. rewrite dict_keys_set.
destruct (dict_contains d k) eqn:E; [exact H|].
apply NoDup_app; [exact H | repeat constructor; auto |].
intros x Hx [<-|[]]. apply dict_contains_In in Hx. congruence.
Qed.

Lemma dict_merge_NoDup d2 : forall d1,
NoDup (dict_keys d1) -> NoDup (dict_keys (dict_merge d1 d2)).
Proof.
unfold dict_merge. induction d2 as [|[k v] d2 IH]; simpl; intros d1 H.
- exact H.
- apply IH. now apply dict_set_NoDup.
Qed.

Lemma dict_get_merge_other d2 : forall d1 k,
~ In k (dict_keys d2) -> dict_get (dict_merge d1 d2) k = dict_get d1 k.
Proof.
unfold dict_merge. induction d2 as [|[k0 v0] d2 IH]; simpl; intros d1 k H.
- reflexivity.
- rewrite IH by tauto. rewrite dict_get_set.
  destruct (String.eqb_spec k0 k); [exfalso; apply H; auto | reflexivity].
Qed.

Lemma dict_get_merge_in d2 : forall d1 k v,
NoDup (dict_keys d2) -> In (k, v) d2 -> dict_get (dict_merge d1 d2) k = Some v.
Proof.
induction d2 as [|[k0 v0] d2 IH]; simpl; intros d1 k v Hnd Hin; [contradiction|].
inversion Hnd as [|? ? Hnotin Hnd']; subst.
destruct Hin as [E|Hin].
- injection E as -> ->.
  change (dict_get (dict_merge (dict_set d1 k v) d2) k = Some v).
  rewrite dict_get_merge_other by exact Hnotin.
  rewrite dict_get_set. now rewrite String.eqb_refl.
- change (dict_get (dict_merge (dict_set d1 k0 v0) d2) k = Some v). now apply IH.
Qed.

(** At inference the row has one entry per name, and a name that the
    features carry has the features' value, also when it is [amount] or
    [category]. *)
Lemma inference_row_features_overwrite payload d :
features payload = Some d -> NoDup (dict_keys d) ->
NoDup (dict_keys (inference_row payload)) /\
forall k v, In (k, v) d -> dict_get (inference_row payload) k = Some v.
Proof.
intros Hf Hnd. unfold inference_row, PredictionInput_model_dump. rewrite Hf. simpl.
split.
- apply dict_merge_NoDup. simpl. repeat constructor; simpl; intuition discriminate.
- intros k v Hin. now apply dict_get_merge_in.
Qed.

(** C7, on the training side: a record whose features carry the key
    [amount].  [_records_to_dataframe] returns a table with two columns
    labelled [amount], the top-level one (5000.0) and the flattened one (1),
    where [predict] builds, from the same fields, a row with the single entry
    [amount = 1]. *)
Theorem training_table_keeps_colliding_columns :
_records_to_dataframe (sample_runtime everything_installed)
  [TrainRecord_model_dump
     (mkTrainRecord 5000 "wire" (Some [("amount", VInt 1)]%string) low)]
= Ok (mkDataFrame 1 [ ("amount", [VFloat 5000]); ("category", [VStr "wire"]);
                      ("amount", [VInt 1]) ]%string,
      [VStr "low"]) /\
inference_row (mkPredictionInput 5000 "wire" (Some [("amount", VInt 1)]%string))
= [("amount", VInt 1); ("category", VStr "wire")]%string.
Proof. split; reflexivity. Qed.

End FeatureAssembler.

Section SampleRuns.
Import Py Schemas Rules Pandas ModelUtils Database Main Props.

Example sample_training :
train_select_serialize (sample_runtime everything_installed)
  (map TrainRecord_model_dump (records sample_request))
  (scoring sample_request) (cv_folds sample_request)
= Ok ("XGBoost"%string, 0.9%float,
      [("clf__learning_rate", VFloat 0.1); ("clf__max_depth", VInt 3);
       ("clf__n_estimators", VInt 200)]%string,
      list_byte_of_string "xgb").
Proof. vm_compute. reflexivity. Qed.

Example sample_training_baseline_only :
train_select_serialize (sample_runtime baseline_only)
  (map TrainRecord_model_dump (records sample_request))
  (scoring sample_request) (cv_folds sample_request)
= Ok ("RandomForest"%string, 0.8%float,
      [("clf__max_depth", VNone); ("clf__n_estimators", VInt 100)]%string,
      list_byte_of_string "rf").
Proof. vm_compute. reflexivity. Qed.

(** A score of NaN is above nothing, not even the initial [-inf]. *)
Example sample_training_unscored :
train_select_serialize nan_runtime
  (map TrainRecord_model_dump (records sample_request))
  (scoring sample_request) (cv_folds sample_request)
= Raise (RuntimeError "No estimator was trained successfully").
Proof. vm_compute. reflexivity. Qed.

Example sample_train_unscored :
post_train nan_runtime sample_request 50 sample_store
= (Raise (RuntimeError "No estimator was trained successfully"), sample_store).
Proof. vm_compute. reflexivity. Qed.

Example sample_flattening :
_records_to_dataframe (sample_runtime everything_installed)
  [TrainRecord_model_dump
     (mkTrainRecord 5000 "wire"
        (Some [("a", VDict [("b", VInt 1); ("c", VDict [("d", VStr "x")])]);
               ("z", VInt 3)]%string) low)]
= Ok (mkDataFrame 1 [ ("amount", [VFloat 5000]); ("category", [VStr "wire"]);
                      ("z", [VInt 3]); ("a.b", [VInt 1]); ("a.c.d", [VStr "x"]) ]%string,
      [VStr "low"]).
Proof. reflexivity. Qed.

(** The fallback on an artifact that does not load: amount 1500 is medium. *)
Example sample_predict_unreadable :
fst (post_predict unreadable_runtime
       (mkPredictionInput 1500 "general" (Some [("foo", VStr "bar")]%string))
       77 sample_store)
= Ok (mkPredictionResponse medium 1 77).
Proof. reflexivity. Qed.

(** The same request answered by the model, which says high. *)
Example sample_predict_model :
fst (post_predict (sample_runtime everything_installed)
       (mkPredictionInput 1500 "general" (Some [("foo", VStr "bar")]%string))
       77 sample_store)
= Ok (mkPredictionResponse high 1 77).
Proof. reflexivity. Qed.

Lemma train_select_serialize_selects_best_witness :
train_select_serialize (sample_runtime everything_installed)
  (map TrainRecord_model_dump (records sample_request))
  (scoring sample_request) (cv_folds sample_request)
= Ok ("XGBoost"%string, 0.9%float,
      [("clf__learning_rate", VFloat 0.1); ("clf__max_depth", VInt 3);
       ("clf__n_estimators", VInt 200)]%string,
      list_byte_of_string "xgb") /\
exists (grids : list (string * GridSearchCV)) i gs (fitted : Fitted string),
  map fst grids = ["RandomForest"; "XGBoost"; "LightGBM"]%string /\
  nth_error grids i = Some ("XGBoost"%string, gs) /\
  best_score_ fitted = 0.9%float.
Proof.
assert (H : train_select_serialize (sample_runtime everything_installed)
              (map TrainRecord_model_dump (records sample_request))
              (scoring sample_request) (cv_folds sample_request)
            = Ok ("XGBoost"%string, 0.9%float,
                  [("clf__learning_rate", VFloat 0.1); ("clf__max_depth", VInt 3);
                   ("clf__n_estimators", VInt 200)]%string,
                  list_byte_of_string "xgb")) by (vm_compute; reflexivity).
split; [exact H|].
destruct (train_select_serialize_selects_best _ _ _ _ H)
  as (X_df & y & pre & grids & i & gs & fitted & _ & _ & _ & Hn & _ & Hi & _ & Hs & _).
exists grids, i, gs, fitted. repeat split; [exact Hn | exact Hi | now symmetry].
Defined.

Lemma train_activates_new_artifact_witness :
exists s',
  train (sample_runtime everything_installed) sample_request 50 (open_session sample_store)
  = (Ok (mkTrainResponse "XGBoost" 0.9
           [("clf__learning_rate", VFloat 0.1); ("clf__max_depth", VInt 3);
            ("clf__n_estimators", VInt 200)]%string 5), s') /\
  map ModelArtifact.id (filter ModelArtifact.active (models (committed s'))) = [5%Z].
Proof.
assert (H : train_select_serialize (sample_runtime everything_installed)
              (map TrainRecord_model_dump (records sample_request))
              (scoring sample_request) (cv_folds sample_request)
            = Ok ("XGBoost"%string, 0.9%float,
                  [("clf__learning_rate", VFloat 0.1); ("clf__max_depth", VInt 3);
                   ("clf__n_estimators", VInt 200)]%string,
                  list_byte_of_string "xgb")) by (vm_compute; reflexivity).
destruct (train_activates_new_artifact (sample_runtime everything_installed)
            sample_request 50 sample_store H)
  as (s' & Ht & _ & Hc & _ & _ & _ & Hact & _).
exists s'. split; [exact Ht|]. rewrite Hc, Hact. reflexivity.
Defined.

Lemma train_failure_keeps_store_witness :
post_train (sample_runtime everything_installed)
  (mkTrainRequest [] (Some "f1_macro"%string) (Some 3%Z)) 50 sample_store
= (Raise (KeyError "label"), sample_store) /\
post_train nan_runtime sample_request 50 sample_store
= (Raise (RuntimeError "No estimator was trained successfully"), sample_store).
Proof.
split.
- apply (proj1 (proj2 (proj2 (proj2 (train_failure_keeps_store
           (sample_runtime everything_installed)
           (mkTrainRequest [] (Some "f1_macro"%string) (Some 3%Z)) 50 sample_store))))
         (KeyError "label")).
  reflexivity.
- pose proof (train_failure_keeps_store nan_runtime sample_request 50 sample_store)
    as (Hrun & _ & _ & Hkeep & _).
  destruct (_records_to_dataframe nan_runtime
              (map TrainRecord_model_dump (records sample_request)))
    as [[X_df y]|e0] eqn:HX; [|vm_compute in HX; discriminate HX].
  destruct (_build_preprocessor nan_runtime X_df) as [pre|e0] eqn:Hpre;
    [|vm_compute in Hpre; discriminate Hpre].
  destruct (candidate_grids nan_runtime pre (scoring sample_request)
              (cv_folds sample_request)) as [grids|e0] eqn:Hg;
    [|vm_compute in Hg; discriminate Hg].
  destruct (Hrun X_df y pre grids eq_refl Hpre Hg) as (e & He & Hwhich).
  + intros name gs f _ Hf. simpl in Hf. injection Hf as <-. reflexivity.
  + rewrite (Hwhich eq_refl) in He.
    * exact (proj2 (Hkeep _ He)).
    * intros name gs _. eexists. reflexivity.
Defined.

Lemma random_forest_always_candidate_witness :
exists bn bs bp art,
  train_select_serialize (sample_runtime baseline_only)
    (map TrainRecord_model_dump (records sample_request))
    (scoring sample_request) (cv_folds sample_request)
  = Ok (bn, bs, bp, art).
Proof.
destruct (random_forest_always_candidate (sample_runtime baseline_only)
            (map TrainRecord_model_dump (records sample_request))
            (scoring sample_request) (cv_folds sample_request)
            (X_df := mkDataFrame 2
               [ ("amount", [VFloat 500; VFloat 20000]);
                 ("category", [VStr "general"; VStr "wire"]);
                 ("k", [VStr "v"; VFloat nan]) ]%string)
            (y := [VStr "low"; VStr "high"])
            eq_refl eq_refl eq_refl eq_refl)
  as (_ & _ & pre & rf_gs & rest & _ & Hg & Hclf & Hrest & _ & Hrun).
assert (Er : rest = []) by (destruct rest; [reflexivity | discriminate Hrest]).
subst rest.
apply (Hrun (mkFitted 0.8%float
               [("clf__max_depth", VNone); ("clf__n_estimators", VInt 100)]%string
               "rf"%string)).
- simpl. unfold sample_fit. rewrite Hclf. reflexivity.
- reflexivity.
- intros name gs [].
- intros est. eexists. reflexivity.
Defined.

Lemma predict_total_with_fallback_witness :
exists resp s' row,
  predict unreadable_runtime
    (mkPredictionInput 1500 "general" (Some [("foo", VStr "bar")]%string))
    77 (open_session sample_store) = (Ok resp, s') /\
  Prediction.risk_level row = RiskLevel_str (risk_level resp) /\
  risk_level resp = medium.
Proof.
destruct (predict_total_with_fallback unreadable_runtime
            (mkPredictionInput 1500 "general" (Some [("foo", VStr "bar")]%string))
            77 sample_store)
  as (resp & s' & row & Hp & _ & Hrow & _ & _ & Hm).
exists resp, s', row. split; [exact Hp|]. split; [exact Hrow|].
destruct (Hm (artifact_at 2 30 true) eq_refl) as (Hload & _).
rewrite (Hload (LibraryError "invalid load key") eq_refl). reflexivity.
Defined.

Lemma triage_risk_model_decision_list_witness :
triage_risk_model (mkTriageInput None 80 male true false false None) = high.
Proof.
apply (proj2 (proj1 (proj2 (triage_risk_model_decision_list
         (mkTriageInput None 80 male true false false None))))).
right. split; [simpl; lia | reflexivity].
Defined.

End SampleRuns.

(* ===================================================================== *)
(** ** The rule engine is monotone *)
(* ===================================================================== *)

Section RuleEngineOrder.
Import Py Schemas Rules Props MoreProps.
Local Open Scope float_scope.

Lemma leb_trans x y z : (x <=? y) = true -> (y <=? z) = true -> (x <=? z) = true.
Proof.
intros Hxy Hyz.
destruct (x <=? z) eqn:E; [reflexivity|].
destruct (leb_refl_of_leb Hxy) as [Hx _].
destruct (leb_refl_of_leb Hyz) as [_ Hz].
pose proof (@not_leb_ltb x z Hx Hz E) as L.
pose proof (@ltb_leb_trans z x y L Hxy) as L'.
apply ltb_not_leb in L'. congruence.
Qed.

(** X16: a larger amount never gets a lower level from
    [simple_risk_model]. *)
Theorem simple_risk_model_monotone (p q : PredictionInput) :
PyFloat.ge (amount q) (amount p) = true ->
(rank (simple_risk_model p) <= rank (simple_risk_model q))%nat.
Proof.
unfold simple_risk_model, PyFloat.ge. intros H.
destruct (10000 <=? amount p) eqn:E1.
- rewrite (@leb_trans 10000 (amount p) (amount q) E1 H). simpl. lia.
- destruct (1000 <=? amount p) eqn:E2.
  + rewrite (@leb_trans 1000 (amount p) (amount q) E2 H).
    destruct (10000 <=? amount q); simpl; lia.
  + simpl. lia.
Qed.

Lemma simple_risk_model_monotone_witness :
(rank (simple_risk_model (mkPredictionInput 999.5 "a" None))
 <= rank (simple_risk_model (mkPredictionInput 12000 "b" None)))%nat.
Proof.
apply (@simple_risk_model_monotone (mkPredictionInput 999.5 "a" None)
                                   (mkPredictionInput 12000 "b" None)).
reflexivity.
Defined.

(** X17: an older patient, or one with more of the three symptoms, never
    gets a lower level from [triage_risk_model]. *)
Theorem triage_risk_model_monotone (p q : TriageInput) :
(age p <= age q)%Z ->
(fever p = true -> fever q = true) ->
(cough p = true -> cough q = true) ->
(shortness_of_breath p = true -> shortness_of_breath q = true) ->
(rank (triage_risk_model p) <= rank (triage_risk_model q))%nat.
Proof.
unfold triage_risk_model. rewrite !Z.geb_leb. intros Ha Hf Hc Hs.
destruct (shortness_of_breath p), (shortness_of_breath q),
         (fever p), (fever q), (cough p), (cough q);
  try (specialize (Hs eq_refl)); try (specialize (Hf eq_refl));
  try (specialize (Hc eq_refl)); try discriminate;
  destruct (Z.leb_spec 75 (age p)); destruct (Z.leb_spec 75 (age q));
  destruct (Z.leb_spec 65 (age p)); destruct (Z.leb_spec 65 (age q));
  simpl; lia.
Qed.

Lemma triage_risk_model_monotone_witness :
(rank (triage_risk_model (mkTriageInput None 66 male false true false None))
 <= rank (triage_risk_model (mkTriageInput None 80 male true true false None)))%nat.
Proof.
apply (@triage_risk_model_monotone
         (mkTriageInput None 66 male false true false None)
         (mkTriageInput None 80 male true true false None));
  simpl; intros; try lia; try reflexivity; try assumption.
Defined.

End RuleEngineOrder.

(* ===================================================================== *)
(** ** What each route leaves in the database *)
(* ===================================================================== *)

Section RouteEffects.
Import Py Schemas Rules Pandas ModelUtils Database Main Props Listing Patients MoreProps.
Variable Estimator : Type.
Variable rt : Runtime Estimator.

Lemma RiskLevel_str_in (r : RiskLevel) :
In (RiskLevel_str r) ["low"; "medium"; "high"]%string.
Proof. destruct r; simpl; auto. Qed.

(** [predict] under [get_db]. *)
Lemma post_predict_store payload now db :
exists r,
  predict_risk rt payload (query_active_model (open_session db)) = RiskLevel_str r /\
  post_predict rt payload now db
  = (Ok (mkPredictionResponse r (next_id (map Prediction.id (predictions db))) now),
     store_after_predict db now (RiskLevel_str r) payload).
Proof.
destruct (predict_risk_level rt payload (query_active_model (open_session db)))
  as (r & Hrisk & _).
exists r. split; [exact Hrisk|].
unfold post_predict, with_db.
rewrite (predict_after_risk rt payload now db r Hrisk). reflexivity.
Qed.

(** [triage] in a fresh session. *)
Lemma triage_computes payload now db :
let risk := RiskLevel_str (triage_risk_model payload) in
let row := Prediction.mk (next_id (map Prediction.id (predictions db))) risk
                         (TriageInput_model_dump payload) now in
let final := mkStore (models db) (predictions db ++ [row]) in
triage payload now (open_session db)
= (Ok (mkPredictionResponse (triage_risk_model payload) (Prediction.id row) now),
   mkSession final final [] [PredictionKey (Prediction.id row)] [final]).
Proof.
intros risk row final. unfold triage.
unfold db_add, db_commit, db_refresh_prediction. simpl.
pose proof (@find_appended _ Prediction.id (predictions db) row) as F.
unfold row in F. simpl in F. fold risk.
rewrite F by apply next_id_fresh.
unfold PredictionResponse_new, risk. rewrite RiskLevel_of_str_str. reflexivity.
Qed.

(** X1: [triage] always answers, with the level of [triage_risk_model]; it
    commits once, adding one prediction row with a fresh key that carries
    this level, the dumped payload and the time of the call, and it leaves
    the model artifacts and the earlier predictions as they were. *)
Theorem triage_stores_rule_level payload now db :
exists resp s' row,
  triage payload now (open_session db) = (Ok resp, s') /\
  risk_level resp = triage_risk_model payload /\
  id resp = Prediction.id row /\
  created_at resp = now /\
  row = Prediction.mk (next_id (map Prediction.id (predictions db)))
                      (RiskLevel_str (triage_risk_model payload))
                      (TriageInput_model_dump payload) now /\
  ~ In (Prediction.id row) (map Prediction.id (predictions db)) /\
  committed s' = mkStore (models db) (predictions db ++ [row]) /\
  history s' = [committed s'].
Proof.
pose proof (triage_computes payload now db) as T. simpl in T.
eexists _, _, (Prediction.mk (next_id (map Prediction.id (predictions db)))
                 (RiskLevel_str (triage_risk_model payload))
                 (TriageInput_model_dump payload) now).
split; [exact T|]. simpl.
repeat split. apply next_id_fresh.
Qed.

(** X2: [predict] never touches the model artifacts: it answers, adds one
    prediction row with a fresh key that carries the answered level, the
    dumped payload and the time of the call, and the active artifact that
    the next request finds is the one this request found. *)
Theorem predict_keeps_models payload now db :
exists resp row,
  post_predict rt payload now db
  = (Ok resp, mkStore (models db) (predictions db ++ [row])) /\
  row = Prediction.mk (id resp) (RiskLevel_str (risk_level resp))
                      (PredictionInput_model_dump payload) now /\
  created_at resp = now /\
  ~ In (id resp) (map Prediction.id (predictions db)) /\
  query_active_model
    (open_session (mkStore (models db) (predictions db ++ [row])))
  = query_active_model (open_session db).
Proof.
destruct (post_predict_store payload now db) as (r & _ & P).
eexists _, _. split; [exact P|]. simpl.
repeat split. apply next_id_fresh.
Qed.

(** [train] under [get_db]: either it raises and the database is as before,
    or it answers and the predictions are as before. *)
Lemma post_train_store request now db :
(exists e, post_train rt request now db = (Raise e, db)) \/
(exists resp bn bs bp art,
   post_train rt request now db = (Ok resp, store_after_train db now bn bs bp art)).
Proof.
destruct (train_select_serialize rt (map TrainRecord_model_dump (records request))
            (scoring request) (cv_folds request))
  as [[[[bn bs] bp] art]|e] eqn:T.
- right. eexists _, bn, bs, bp, art.
  unfold post_train, with_db.
  rewrite (train_after_selection rt request now db T). reflexivity.
- left. exists e. unfold post_train, with_db, train. rewrite T. reflexivity.
Qed.

(** [delete_patient_data] under [get_db]. *)
Lemma post_delete_patient_store now patient_id db :
post_delete_patient now patient_id db =
match find (fun r => Z.eqb (Prediction.id r) patient_id) (predictions db) with
| Some patient =>
    (Returned (mkDeleteResponse true "Patient deleted successfully"),
     mkStore (models db)
       (filter (fun r => negb (Z.eqb (Prediction.id r) (Prediction.id patient)))
               (predictions db)))
| None => (HTTPException 404 "Patient not found", db)
end.
Proof.
unfold post_delete_patient, delete_patient_data, delete_patient, get_patient_by_id.
simpl. destruct (find _ (predictions db)); reflexivity.
Qed.

(** X3: the routes keep the stored risk levels well-formed: when every
    stored prediction carries one of "low", "medium", "high", so does every
    stored prediction after [predict], after [triage], after [train] (failed
    or not) and after a deletion. *)
Theorem routes_keep_risk_levels_valid db :
risk_levels_valid db ->
(forall payload now, risk_levels_valid (snd (post_predict rt payload now db))) /\
(forall payload now, risk_levels_valid (snd (with_db (triage payload now) db))) /\
(forall request now, risk_levels_valid (snd (post_train rt request now db))) /\
(forall now patient_id, risk_levels_valid (snd (post_delete_patient now patient_id db))).
Proof.
unfold risk_levels_valid. intros V. repeat split.
- intros payload now.
  destruct (post_predict_store payload now db) as (r & _ & ->). simpl.
  apply Forall_app. split; [exact V|].
  constructor; [apply RiskLevel_str_in | constructor].
- intros payload now. unfold with_db.
  pose proof (triage_computes payload now db) as T. simpl in T. rewrite T. simpl.
  apply Forall_app. split; [exact V|].
  constructor; [apply RiskLevel_str_in | constructor].
- intros request now.
  destruct (post_train_store request now db)
    as [[e ->] | (resp & bn & bs & bp & art & ->)]; exact V.
- intros now patient_id. rewrite post_delete_patient_store.
  destruct (find _ (predictions db)); simpl; [|exact V].
  rewrite Forall_forall in *. intros x Hx. apply filter_In in Hx. now apply V.
Qed.

End RouteEffects.

Section RouteEffectsRuns.
Import Py Schemas Rules Pandas ModelUtils Database Main Props Listing Patients MoreProps.

Lemma routes_keep_risk_levels_valid_witness :
risk_levels_valid sample_predictions /\
risk_levels_valid
  (snd (with_db (triage sample_triage 50) sample_predictions)).
Proof.
assert (V : risk_levels_valid sample_predictions).
{ unfold risk_levels_valid, sample_predictions. simpl.
  repeat (constructor; [simpl; auto 6|]). constructor. }
split; [exact V|].
apply (proj1 (proj2 (routes_keep_risk_levels_valid
                       (sample_runtime everything_installed) V))).
Defined.

End RouteEffectsRuns.

(* ===================================================================== *)
(** ** Lists in newest-first order *)
(* ===================================================================== *)

Section NewestFirst.
Import Py Schemas Database Listing MoreProps.

Lemma insert_newest_first_perm r l : Permutation (r :: l) (insert_newest_first r l).
Proof.
induction l as [|x l IH]; simpl.
- apply Permutation_refl.
- destruct (Prediction.created_at x <=? Prediction.created_at r)%Z.
  + apply Permutation_refl.
  + eapply perm_trans; [apply perm_swap|]. now apply perm_skip.
Qed.

Lemma predictions_newest_first_perm l : Permutation l (predictions_newest_first l).
Proof.
induction l as [|x l IH]; simpl.
- apply perm_nil.
- eapply perm_trans; [|apply insert_newest_first_perm]. now apply perm_skip.
Qed.

Lemma insert_newest_first_sorted r l :
StronglySorted prediction_newer_or_same l ->
StronglySorted prediction_newer_or_same (insert_newest_first r l).
Proof.
induction 1 as [|x l Hs IH Hall]; simpl.
- repeat constructor.
- destruct (Z.leb_spec (Prediction.created_at x) (Prediction.created_at r)).
  + constructor; [now constructor|].
    constructor; [exact H|].
    eapply Forall_impl; [|exact Hall]. unfold prediction_newer_or_same. intros; lia.
  + constructor; [exact IH|].
    eapply Permutation_Forall; [apply insert_newest_first_perm|].
    constructor; [unfold prediction_newer_or_same; lia | exact Hall].
Qed.

Lemma predictions_newest_first_sorted l :
StronglySorted prediction_newer_or_same (predictions_newest_first l).
Proof.
induction l as [|x l IH]; simpl.
- constructor.
- now apply insert_newest_first_sorted.
Qed.

(** A row that is strictly newer than all the others comes out first,
    wherever it stands in the table. *)
Lemma newest_row_first x : forall l tail,
Forall (fun r => (Prediction.created_at r < Prediction.created_at x)%Z) l ->
fold_right insert_newest_first (x :: tail) l
= x :: fold_right insert_newest_first tail l.
Proof.
induction l as [|r l IH]; intros tail Hl; simpl.
- reflexivity.
- inversion Hl as [|? ? Hr Hl']; subst. rewrite IH by exact Hl'. simpl.
  destruct (Z.leb_spec (Prediction.created_at x) (Prediction.created_at r));
    [lia | reflexivity].
Qed.

Lemma predictions_newest_first_appended l x :
Forall (fun r => (Prediction.created_at r < Prediction.created_at x)%Z) l ->
predictions_newest_first (l ++ [x]) = x :: predictions_newest_first l.
Proof.
intros H. unfold predictions_newest_first. rewrite fold_right_app. simpl.
now apply newest_row_first.
Qed.

Lemma StronglySorted_app (A : Type) (R : A -> A -> Prop) (a b : list A) :
StronglySorted R (a ++ b) ->
StronglySorted R a /\ forall x y, In x a -> In y b -> R x y.
Proof.
induction a as [|h a IH]; simpl; intros H.
- split; [constructor | intros x y []].
- inversion H as [|? ? Hs Hall]; subst.
  destruct (IH Hs) as [Ha Hab]. split.
  + constructor; [exact Ha|].
    rewrite Forall_forall in *. intros z Hz. apply Hall. apply in_or_app. now left.
  + intros x y [<-|Hx] Hy.
    * rewrite Forall_forall in Hall. apply Hall. apply in_or_app. now right.
    * now apply Hab.
Qed.

Lemma StronglySorted_map (A B : Type) (R : A -> A -> Prop) (S : B -> B -> Prop)
      (f : A -> B) (l : list A) :
(forall x y, R x y -> S (f x) (f y)) ->
StronglySorted R l -> StronglySorted S (map f l).
Proof.
intros HRS. induction 1 as [|x l Hs IH Hall]; simpl; constructor; auto.
rewrite Forall_forall in *. intros z Hz. apply in_map_iff in Hz.
destruct Hz as (w & <- & Hw). apply HRS. now apply Hall.
Qed.

Lemma Permutation_filter_same (A : Type) (f : A -> bool) (l l' : list A) :
Permutation l l' -> Permutation (filter f l) (filter f l').
Proof.
induction 1 as [| x l l' _ IH | x y l | l l' l'' _ IH1 _ IH2]; simpl.
- constructor.
- destruct (f x); [now constructor | exact IH].
- destruct (f x), (f y); try apply Permutation_refl. apply perm_swap.
- eapply perm_trans; eauto.
Qed.

End NewestFirst.

(* ===================================================================== *)
(** ** /predictions and /models *)
(* ===================================================================== *)

Section ListingRoutes.
Import Py Schemas Rules Pandas ModelUtils Database Main Props Listing Patients MoreProps.

Lemma as_PredictionRecord_ok row :
In (Prediction.risk_level row) ["low"; "medium"; "high"]%string ->
exists item, as_PredictionRecord row = Ok item /\ lists_row item row.
Proof.
intros Hin. unfold as_PredictionRecord.
destruct (RiskLevel_of_str (Prediction.risk_level row)) as [level|] eqn:E.
- eexists. split; [reflexivity|]. unfold lists_row. simpl.
  repeat split. symmetry. now apply RiskLevel_of_str_Some.
- apply RiskLevel_of_str_None in E. contradiction.
Qed.

Lemma validate_records_ok rows :
Forall (fun r => In (Prediction.risk_level r) ["low"; "medium"; "high"]%string) rows ->
exists items, validate_records rows = Ok items /\ Forall2 lists_row items rows.
Proof.
induction 1 as [|row rows Hrow _ IH]; simpl.
- exists []. split; [reflexivity | constructor].
- destruct (as_PredictionRecord_ok row Hrow) as (item & -> & Hitem).
  destruct IH as (items & -> & Hitems). simpl.
  exists (item :: items). split; [reflexivity | now constructor].
Qed.

(** One stored level outside the three literals makes the check fail. *)
Lemma validate_records_invalid rows row :
In row rows ->
~ In (Prediction.risk_level row) ["low"; "medium"; "high"]%string ->
validate_records rows = Raise ValidationError.
Proof.
induction rows as [|r rows IH]; simpl; intros Hin Hbad; [contradiction|].
unfold as_PredictionRecord at 1.
destruct (RiskLevel_of_str (Prediction.risk_level r)) as [level|] eqn:E; simpl.
- destruct Hin as [->|Hin].
  + apply RiskLevel_of_str_Some in E. exfalso. apply Hbad. rewrite E.
    destruct level; simpl; auto.
  + rewrite (IH Hin Hbad). reflexivity.
- reflexivity.
Qed.

(** X4: on a table whose risk levels are well-formed, [list_predictions]
    answers with one item per listed row, in order, carrying the row's key,
    level, timestamp and input; it lists [min 100 n] of the [n] rows, newest
    first; every row it leaves out is no newer than any row it lists; and with
    at most 100 rows it lists them all. *)
Theorem list_predictions_newest_100 db :
risk_levels_valid db ->
exists items rows,
  list_predictions (open_session db) = Ok items /\
  Forall2 lists_row items rows /\
  List.length rows = Nat.min 100 (List.length (predictions db)) /\
  StronglySorted prediction_newer_or_same rows /\
  (forall r, In r rows -> In r (predictions db)) /\
  (forall r o, In r rows -> In o (predictions db) -> ~ In o rows ->
     (Prediction.created_at o <= Prediction.created_at r)%Z) /\
  ((List.length (predictions db) <= 100)%nat -> Permutation (predictions db) rows).
Proof.
intros V. unfold list_predictions. simpl.
set (sorted := predictions_newest_first (predictions db)).
pose proof (predictions_newest_first_perm (predictions db)) as P. fold sorted in P.
pose proof (predictions_newest_first_sorted (predictions db)) as S. fold sorted in S.
rewrite <- (firstn_skipn 100 sorted) in S.
apply StronglySorted_app in S. destruct S as [S1 S2].
assert (Hsub : forall r, In r (firstn 100 sorted) -> In r (predictions db)).
{ intros r Hr. eapply Permutation_in; [apply Permutation_sym; exact P|].
  rewrite <- (firstn_skipn 100 sorted). apply in_or_app. now left. }
destruct (@validate_records_ok (firstn 100 sorted)) as (items & Hv & Hitems).
{ unfold risk_levels_valid in V. rewrite Forall_forall in *. auto. }
exists items, (firstn 100 sorted). repeat split; auto.
- rewrite length_firstn. now rewrite (Permutation_length P).
- intros r o Hr Ho Hnot. apply (S2 r o Hr).
  apply (Permutation_in _ P) in Ho.
  rewrite <- (firstn_skipn 100 sorted) in Ho.
  apply in_app_or in Ho. destruct Ho as [Ho|Ho]; [contradiction | exact Ho].
- intros Hlen. rewrite firstn_all2; [exact P|].
  now rewrite <- (Permutation_length P).
Qed.

Lemma list_predictions_newest_100_witness :
exists items,
  list_predictions (open_session sample_predictions) = Ok items /\
  map PredictionRecord.id items = [2; 3; 1]%Z.
Proof.
assert (V : risk_levels_valid sample_predictions).
{ unfold risk_levels_valid, sample_predictions. simpl.
  repeat (constructor; [simpl; auto 6|]). constructor. }
destruct (list_predictions_newest_100 V) as (items & rows & Hl & _).
exists items. split; [exact Hl|].
assert (E : list_predictions (open_session sample_predictions)
            = Ok [PredictionRecord.mk 2 high 30 (Some []);
                  PredictionRecord.mk 3 medium 20 (Some []);
                  PredictionRecord.mk 1 low 10 (Some [])]) by reflexivity.
rewrite E in Hl. injection Hl as <-. reflexivity.
Defined.

(** X6: [list_models] lists every stored artifact once, newest first, with
    its key, name, timestamp, metrics and active flag. *)
Theorem list_models_all_newest_first db :
Permutation (map as_ModelSummary (models db)) (list_models (open_session db)) /\
StronglySorted summary_newer_or_same (list_models (open_session db)) /\
List.length (list_models (open_session db)) = List.length (models db).
Proof.
unfold list_models. simpl. repeat split.
- apply Permutation_map. apply order_by_created_at_desc_perm.
- eapply StronglySorted_map; [|apply order_by_created_at_desc_sorted].
  intros x y H. exact H.
- rewrite length_map.
  symmetry. apply Permutation_length. apply order_by_created_at_desc_perm.
Qed.

End ListingRoutes.

(* ===================================================================== *)
(** ** One request after another *)
(* ===================================================================== *)

Section RequestSequences.
Import Py Schemas Rules Pandas ModelUtils Database Main Props Listing Patients MoreProps.
Variable Estimator : Type.
Variable rt : Runtime Estimator.

(** X5: a prediction made at a time later than every stored prediction is
    the first item of the next [list_predictions], with the key and the level
    that [predict] answered and the payload it was given; this needs the
    stored levels to be well-formed, as [list_predictions] checks them. *)
Theorem predict_then_list_predictions payload now db :
risk_levels_valid db ->
Forall (fun r => (Prediction.created_at r < now)%Z) (predictions db) ->
exists resp db' item rest,
  post_predict rt payload now db = (Ok resp, db') /\
  list_predictions (open_session db') = Ok (item :: rest) /\
  PredictionRecord.id item = id resp /\
  PredictionRecord.risk_level item = risk_level resp /\
  PredictionRecord.created_at item = now /\
  PredictionRecord.input_data item = Some (PredictionInput_model_dump payload).
Proof.
intros V Hnew.
destruct (post_predict_store rt payload now db) as (r & _ & P).
unfold list_predictions.
eexists _, _. 
set (row := new_prediction db now (RiskLevel_str r) payload).
assert (Hsorted : predictions_newest_first (predictions db ++ [row])
                  = row :: predictions_newest_first (predictions db))
  by (apply predictions_newest_first_appended; exact Hnew).
destruct (@validate_records_ok (firstn 99 (predictions_newest_first (predictions db))))
  as (rest & Hrest & _).
{ unfold risk_levels_valid in V. rewrite Forall_forall in *. intros x Hx.
  apply V. eapply Permutation_in;
    [apply Permutation_sym; apply predictions_newest_first_perm|].
  rewrite <- (firstn_skipn 99 (predictions_newest_first (predictions db))).
  apply in_or_app. now left. }
exists (PredictionRecord.mk (Prediction.id row) r now
          (Some (PredictionInput_model_dump payload))), rest.
split; [exact P|].
split.
- unfold store_after_predict, open_session. cbn [tx predictions]. fold row.
  rewrite Hsorted. rewrite firstn_cons.
  cbn [validate_records]. unfold as_PredictionRecord at 1.
  unfold row at 1, new_prediction. cbn [Prediction.risk_level].
  rewrite RiskLevel_of_str_str. cbn [bind]. rewrite Hrest. reflexivity.
- repeat split.
Qed.

(** X7: a training run that succeeded is what the next requests see: the
    query of [predict] finds the artifact just stored, whose bytes are the
    ones [train_select_serialize] returned and whose key is the [model_id] of
    the answer; and [list_models] shows exactly one active entry, this one,
    with the winner's name. *)
Theorem train_then_active_model request now db bn bs bp art :
train_select_serialize rt (map TrainRecord_model_dump (records request))
                       (scoring request) (cv_folds request)
  = Ok (bn, bs, bp, art) ->
exists resp db' m,
  post_train rt request now db = (Ok resp, db') /\
  query_active_model (open_session db') = Some m /\
  ModelArtifact.artifact m = art /\
  ModelArtifact.id m = model_id resp /\
  ModelArtifact.name m = best_model_name resp /\
  best_model_name resp = bn /\
  filter ModelSummary.active (list_models (open_session db')) = [as_ModelSummary m].
Proof.
intros H.
exists (mkTrainResponse bn bs bp (ModelArtifact.id (new_artifact db now bn bs bp art))),
       (store_after_train db now bn bs bp art),
       (new_artifact db now bn bs bp art).
assert (Hact : filter ModelArtifact.active (models (store_after_train db now bn bs bp art))
               = [new_artifact db now bn bs bp art]).
{ unfold store_after_train. simpl.
  rewrite filter_app, filter_active_set_inactive. reflexivity. }
split.
{ unfold post_train, with_db.
  rewrite (train_after_selection rt request now db H). reflexivity. }
split.
{ unfold query_active_model. simpl tx. rewrite Hact. reflexivity. }
repeat split.
unfold list_models. simpl tx.
set (l := models (store_after_train db now bn bs bp art)) in *.
assert (F : filter ModelArtifact.active (order_by_created_at_desc l)
            = [new_artifact db now bn bs bp art]).
{ apply Permutation_length_1_inv. rewrite <- Hact.
  apply Permutation_filter_same. apply order_by_created_at_desc_perm. }
clear Hact. revert F. generalize (order_by_created_at_desc l).
intros sorted F. rewrite <- (map_cons as_ModelSummary _ []). rewrite <- F.
clear F. induction sorted as [|x sorted IH]; simpl; [reflexivity|].
destruct (ModelArtifact.active x); simpl; now rewrite IH.
Qed.

(** Looking up and deleting a key that is not in the table. *)
Lemma delete_absent_patient_facts db patient_id :
~ In patient_id (map Prediction.id (predictions db)) ->
get_patient_by_id (open_session db) patient_id = None /\
forall now,
  post_delete_patient now patient_id db = (HTTPException 404 "Patient not found", db).
Proof.
intros Hnot.
assert (F : find (fun r => Z.eqb (Prediction.id r) patient_id) (predictions db) = None).
{ destruct (find _ (predictions db)) as [p|] eqn:E; [|reflexivity].
  apply find_some in E. destruct E as [Hin Heq]. apply Z.eqb_eq in Heq.
  exfalso. apply Hnot. rewrite <- Heq. now apply in_map. }
split; [exact F|].
intros now. rewrite post_delete_patient_store. now rewrite F.
Qed.

(** X8: deleting a key of the signed 64-bit range that no prediction has
    answers 404 and changes nothing: [delete_patient] returns [False] with
    the session as it was, nothing is committed.  (A key outside the range
    never reaches the lookup: the driver refuses to bind it.) *)
Theorem delete_absent_patient now patient_id db :
int64 patient_id ->
~ In patient_id (map Prediction.id (predictions db)) ->
get_patient_by_id (open_session db) patient_id = None /\
delete_patient now (open_session db) patient_id = (false, open_session db) /\
post_delete_patient now patient_id db = (HTTPException 404 "Patient not found", db).
Proof.
intros _ Hnot.
assert (F : find (fun r => Z.eqb (Prediction.id r) patient_id) (predictions db) = None).
{ destruct (find _ (predictions db)) as [p|] eqn:E; [|reflexivity].
  apply find_some in E. destruct E as [Hin Heq]. apply Z.eqb_eq in Heq.
  exfalso. apply Hnot. rewrite <- Heq. now apply in_map. }
split; [exact F|]. split.
- unfold delete_patient, get_patient_by_id. simpl. now rewrite F.
- rewrite post_delete_patient_store. now rewrite F.
Qed.

(** X9: deleting a key that a prediction has answers with success and
    commits once: every prediction with that key is gone, the other
    predictions stay in their order, the model artifacts are untouched; after
    it the key is not found any more and deleting it again answers 404. *)
Theorem delete_present_patient now patient_id db :
In patient_id (map Prediction.id (predictions db)) ->
exists patient db',
  get_patient_by_id (open_session db) patient_id = Some patient /\
  Prediction.id patient = patient_id /\
  In patient (predictions db) /\
  post_delete_patient now patient_id db
  = (Returned (mkDeleteResponse true "Patient deleted successfully"), db') /\
  history (snd (delete_patient now (open_session db) patient_id)) = [db'] /\
  models db' = models db /\
  predictions db'
  = filter (fun r => negb (Z.eqb (Prediction.id r) patient_id)) (predictions db) /\
  ~ In patient_id (map Prediction.id (predictions db')) /\
  get_patient_by_id (open_session db') patient_id = None /\
  (forall later,
     post_delete_patient later patient_id db'
     = (HTTPException 404 "Patient not found", db')).
Proof.
intros Hin. apply in_map_iff in Hin. destruct Hin as (p & Hp & Hpin).
destruct (find (fun r => Z.eqb (Prediction.id r) patient_id) (predictions db))
  as [patient|] eqn:F.
2:{ exfalso. apply (find_none _ _ F) in Hpin. apply Z.eqb_neq in Hpin. contradiction. }
pose proof (find_some _ _ F) as [Hpat Heq]. apply Z.eqb_eq in Heq.
set (db' := mkStore (models db)
              (filter (fun r => negb (Z.eqb (Prediction.id r) patient_id))
                      (predictions db))).
assert (Hgone : ~ In patient_id (map Prediction.id (predictions db'))).
{ unfold db'. simpl. intros K. apply in_map_iff in K.
  destruct K as (x & Hx & Hxin). apply filter_In in Hxin.
  destruct Hxin as [_ Hneq]. rewrite Hx, Z.eqb_refl in Hneq. discriminate. }
exists patient, db'.
split; [exact F|]. split; [exact Heq|]. split; [exact Hpat|].
split; [rewrite post_delete_patient_store, F, Heq; reflexivity|].
split.
{ unfold delete_patient, get_patient_by_id. simpl. rewrite F. simpl.
  rewrite Heq. reflexivity. }
split; [reflexivity|]. split; [reflexivity|]. split; [exact Hgone|].
destruct (delete_absent_patient_facts db' patient_id Hgone) as [G D].
split; [exact G | exact D].
Qed.

End RequestSequences.

(* ===================================================================== *)
(** ** model_utils.py: the table, the preprocessor, the candidates *)
(* ===================================================================== *)

Section TrainingPipeline.
Import Py Schemas Rules Pandas ModelUtils Database Main Props MoreProps.
Variable Estimator : Type.
Variable rt : Runtime Estimator.

(** X10: when [_build_preprocessor] returns, its two column lists split the
    labels of the table: every label is in one of them, no label is in both,
    and neither holds a label that the table does not have; without pandas or
    scikit-learn it raises. *)
Theorem build_preprocessor_splits_columns df ct :
_build_preprocessor rt df = Ok ct ->
installed rt "pandas" = true /\
installed rt "sklearn" = true /\
(forall c, In c (column_names df) <->
           In c (numeric_cols ct) \/ In c (categorical_cols ct)) /\
(forall c, In c (numeric_cols ct) -> ~ In c (categorical_cols ct)) /\
(forall c, In c (numeric_cols ct) <->
           In c (column_names df) /\ is_numeric_dtype rt (df_getitem df c) = true).
Proof.
unfold _build_preprocessor, import_.
destruct (installed rt "pandas"); simpl; [|discriminate].
destruct (installed rt "sklearn"); simpl; [|discriminate].
intros H. injection H as <-. simpl.
split; [reflexivity|]. split; [reflexivity|].
set (num := filter (fun c => is_numeric_dtype rt (df_getitem df c)) (column_names df)).
assert (Hex : forall c, existsb (String.eqb c) num = true <-> In c num).
{ intros c. rewrite existsb_exists. split.
  - intros (x & Hx & E). apply String.eqb_eq in E. now subst.
  - intros Hc. exists c. split; [exact Hc | apply String.eqb_refl]. }
repeat split.
- intros Hc. destruct (existsb (String.eqb c) num) eqn:E.
  + left. now apply Hex.
  + right. apply filter_In. split; [exact Hc|]. now rewrite E.
- intros [Hc|Hc].
  + unfold num in Hc. apply filter_In in Hc. tauto.
  + apply filter_In in Hc. tauto.
- intros c Hn Hc. apply filter_In in Hc. destruct Hc as [_ Hc].
  apply Hex in Hn. rewrite Hn in Hc. discriminate.
- unfold num in H. apply filter_In in H. tauto.
- unfold num in H. apply filter_In in H. tauto.
- intros [H1 H2]. unfold num. apply filter_In. now split.
Qed.

Lemma union_keys_same (K : list string) (rows : list dict) :
fold_left add_key K K = K ->
Forall (fun row => dict_keys row = K) rows ->
fold_left (fun acc row => fold_left add_key (dict_keys row) acc) rows K = K.
Proof.
intros HK. induction 1 as [|row rows Hrow _ IH]; simpl.
- reflexivity.
- rewrite Hrow, HK. exact IH.
Qed.

(** The four columns of [pd.DataFrame(records)] for dumped records. *)
Lemma pd_DataFrame_of_records (records : list TrainRecord) :
records <> [] ->
pd_DataFrame (map TrainRecord_model_dump records)
= mkDataFrame (List.length records)
    [ ("amount", map (fun r => VFloat (tr_amount r)) records);
      ("category", map (fun r => VStr (tr_category r)) records);
      ("features", map (fun r => option_dict_value (tr_features r)) records);
      ("label", map (fun r => VStr (RiskLevel_str (tr_label r))) records) ]%string.
Proof.
intros Hne. unfold pd_DataFrame. rewrite length_map.
assert (HK : union_keys (map TrainRecord_model_dump records)
             = ["amount"; "category"; "features"; "label"]%string).
{ destruct records as [|r records]; [congruence|].
  unfold union_keys. simpl map. cbn [fold_left].
  change (fold_left add_key (dict_keys (TrainRecord_model_dump r)) [])
    with ["amount"; "category"; "features"; "label"]%string.
  apply union_keys_same; [reflexivity|].
  apply Forall_forall. intros row Hrow. apply in_map_iff in Hrow.
  destruct Hrow as (x & <- & _). reflexivity. }
rewrite HK. simpl. rewrite !map_map. reflexivity.
Qed.

(** X11: from one or more dumped training records (and with pandas and
    numpy), [_records_to_dataframe] returns the labels in record order and a
    table with one row per record: its first two columns are the amounts and
    the categories in record order, then come the flattened feature columns,
    and every column has exactly one cell per record. *)
Theorem records_to_dataframe_aligned (records : list TrainRecord) :
records <> [] ->
installed rt "pandas" = true ->
installed rt "numpy" = true ->
let feat_df := json_normalize (map (fun r => option_dict_value (tr_features r)) records) in
_records_to_dataframe rt (map TrainRecord_model_dump records)
= Ok (mkDataFrame (List.length records)
        ([ ("amount", map (fun r => VFloat (tr_amount r)) records);
           ("category", map (fun r => VStr (tr_category r)) records) ]%string
         ++ columns feat_df),
      map (fun r => VStr (RiskLevel_str (tr_label r))) records) /\
Forall (fun col => List.length (snd col) = List.length records)
       ([ ("amount", map (fun r => VFloat (tr_amount r)) records);
          ("category", map (fun r => VStr (tr_category r)) records) ]%string
        ++ columns feat_df).
Proof.
intros Hne Hpd Hnp feat_df. split.
- unfold _records_to_dataframe, import_. rewrite Hpd, Hnp. simpl.
  rewrite (pd_DataFrame_of_records Hne). reflexivity.
- apply Forall_app. split.
  + repeat constructor; simpl; apply length_map.
  + unfold feat_df, json_normalize, pd_DataFrame. simpl.
    apply Forall_forall. intros col Hcol. apply in_map_iff in Hcol.
    destruct Hcol as (k & <- & _). simpl. now rewrite !length_map.
Qed.

(** X13: every candidate that [train_select_serialize] builds is registered
    under the name of its learner type, no name twice, and searches with the
    same preprocessor, the request's fold count and scoring, and
    [n_jobs = -1]; without scikit-learn no candidate list is built. *)
Theorem candidate_grids_settings pre scoring cv_folds grids :
candidate_grids rt pre scoring cv_folds = Ok grids ->
installed rt "sklearn" = true /\
NoDup (map fst grids) /\
Forall (fun ng =>
          fst ng = classifier_name (clf (estimator (snd ng))) /\
          ModelUtils.pre (estimator (snd ng)) = pre /\
          cv (snd ng) = cv_folds /\
          gs_scoring (snd ng) = scoring /\
          n_jobs (snd ng) = (-1)%Z) grids.
Proof.
unfold candidate_grids, _grid_rf, _grid_xgb, _grid_lgbm, import_.
destruct (installed rt "sklearn"); simpl; [|discriminate].
destruct (installed rt "xgboost"), (installed rt "lightgbm"); simpl;
  intros H; injection H as <-; simpl;
  (split; [reflexivity|]); split;
  try (repeat constructor; simpl; intuition discriminate).
Qed.

(** X14: what [train_select_serialize] returns is never the initial state
    of its loop: the score is above [-inf] and is not NaN (it compares to itself),
    and the name is one of the three candidate names (never the empty
    string). *)
Theorem train_select_serialize_score_above_sentinel records scoring cv_folds bn bs bp art :
train_select_serialize rt records scoring cv_folds = Ok (bn, bs, bp, art) ->
PyFloat.gt bs PyFloat.neg_inf = true /\
PyFloat.ge bs bs = true /\
In bn ["RandomForest"; "XGBoost"; "LightGBM"]%string.
Proof.
intros H. apply train_select_serialize_ok in H.
destruct H as (X_df & y & pre & grids & best & est & _ & _ & Hg & Hfit & Hest & _ & -> & -> & ->).
pose proof (candidate_grids_names _ _ _ _ Hg) as Hnames.
destruct (@fit_candidates_selects _ _ _ _ _ _ _ Hfit)
  as [[-> _] | (i & gs & f & Hi & Hf & Hb & Hgt & _)].
- discriminate Hest.
- destruct best as [n0 s0 p0 e0]. simpl in *. injection Hb as -> _ _.
  split; [exact Hgt|]. split.
  + unfold PyFloat.gt in Hgt. apply ltb_leb in Hgt.
    apply leb_refl_of_leb in Hgt. destruct Hgt as [_ Hs]. exact Hs.
  + assert (Hin : In n0 (map fst grids)).
    { apply in_map_iff. exists (n0, gs). split; [reflexivity|].
      eapply nth_error_In; eauto. }
    rewrite Hnames in Hin.
    destruct (installed rt "xgboost"), (installed rt "lightgbm");
      simpl in *; intuition.
Qed.

End TrainingPipeline.

(* ===================================================================== *)
(** ** The row that [predict] gives the model *)
(* ===================================================================== *)

Section InferenceRow.
Import Py Schemas Main Props MoreProps.

Lemma dict_get_In d k v : dict_get d k = Some v -> In (k, v) d.
Proof.
induction d as [|[k0 v0] d IH]; simpl; [discriminate|].
destruct (String.eqb_spec k0 k) as [->|_].
- intros H. injection H as ->. now left.
- intros H. right. now apply IH.
Qed.

Lemma dict_get_None d k : dict_get d k = None <-> ~ In k (dict_keys d).
Proof.
induction d as [|[k0 v0] d IH]; simpl.
- tauto.
- destruct (String.eqb_spec k0 k) as [->|Hne].
  + split; [discriminate | intros H; exfalso; apply H; now left].
  + rewrite IH. intuition.
Qed.

(** X12: the row that [predict] builds has one entry per name; a name
    among the features has the features' value (also [amount] and
    [category]); [amount] and [category] have the payload's values when the
    features do not carry them; nothing else is in the row; and without
    features the row is just the amount and the category. *)
Theorem inference_row_entries payload :
let feats := match features payload with Some d => d | None => [] end in
NoDup (dict_keys feats) ->
NoDup (dict_keys (inference_row payload)) /\
(forall k v, In (k, v) feats -> dict_get (inference_row payload) k = Some v) /\
(~ In "amount"%string (dict_keys feats) ->
   dict_get (inference_row payload) "amount" = Some (VFloat (amount payload))) /\
(~ In "category"%string (dict_keys feats) ->
   dict_get (inference_row payload) "category" = Some (VStr (category payload))) /\
(forall k, In k (dict_keys (inference_row payload)) <->
           k = "amount"%string \/ k = "category"%string \/ In k (dict_keys feats)) /\
(feats = [] ->
   inference_row payload
   = [("amount", VFloat (amount payload)); ("category", VStr (category payload))]%string).
Proof.
intros feats Hnd.
assert (Hrow : inference_row payload
               = dict_merge [("amount", VFloat (amount payload));
                             ("category", VStr (category payload))]%string feats).
{ unfold inference_row, PredictionInput_model_dump, feats.
  destruct (features payload); reflexivity. }
rewrite Hrow.
split; [|split; [|split; [|split; [|split]]]].
- apply dict_merge_NoDup. simpl. repeat constructor; simpl; intuition discriminate.
- intros k v Hin. now apply dict_get_merge_in.
- intros Hno. rewrite dict_get_merge_other by exact Hno. reflexivity.
- intros Hno. rewrite dict_get_merge_other by exact Hno. reflexivity.
- intros k.
  set (base := [("amount", VFloat (amount payload));
                ("category", VStr (category payload))]%string).
  destruct (in_dec string_dec k (dict_keys feats)) as [Hk|Hk].
  + split; [tauto|]. intros _.
    apply in_map_iff in Hk. destruct Hk as ([k' v] & E & Hin). simpl in E. subst k'.
    pose proof (@dict_get_merge_in feats base k v Hnd Hin) as G.
    apply dict_get_In in G. apply in_map_iff. now exists (k, v).
  + pose proof (@dict_get_merge_other feats base k Hk) as G.
    split.
    * intros Hin. destruct (dict_get base k) as [v|] eqn:E.
      -- apply dict_get_In in E. simpl in E.
         destruct E as [E|[E|[]]]; injection E as <- _; tauto.
      -- apply dict_get_None in G. contradiction.
    * intros [->|[->|Hin]]; [| |contradiction].
      -- destruct (dict_get (dict_merge base feats) "amount") as [v|] eqn:E.
         ++ apply dict_get_In in E. apply in_map_iff. now exists ("amount"%string, v).
         ++ simpl in G. discriminate.
      -- destruct (dict_get (dict_merge base feats) "category") as [v|] eqn:E.
         ++ apply dict_get_In in E. apply in_map_iff. now exists ("category"%string, v).
         ++ simpl in G. discriminate.
- intros ->. reflexivity.
Qed.

End InferenceRow.

(* ===================================================================== *)
(** ** The security headers *)
(* ===================================================================== *)

Section SecurityHeaders.
Import Middleware MoreProps.

Lemma header_value_app h a name :
header_value (h ++ a) name =
match header_value h name with
| Some v => Some v
| None => header_value a name
end.
Proof.
unfold header_value. induction h as [|[k v] h IH]; simpl.
- reflexivity.
- destruct (String.eqb k name); [reflexivity | exact IH].
Qed.

Lemma present_header_value h name :
existsb (fun item => String.eqb (fst item) name) h = true <->
header_value h name <> None.
Proof.
unfold header_value. induction h as [|[k v] h IH]; simpl.
- split; [discriminate | congruence].
- destruct (String.eqb k name); simpl; [split; [discriminate | reflexivity] | exact IH].
Qed.

(** [setdefault] by cases: a header that is there makes it the identity. *)
Lemma setdefault_cases h key value :
(header_value h (lower key) <> None /\ setdefault h key value = h) \/
(header_value h (lower key) = None /\
 setdefault h key value = h ++ [(lower key, value)]).
Proof.
unfold setdefault.
destruct (existsb (fun item => String.eqb (fst item) (lower key)) h) eqn:E.
- left. split; [now apply present_header_value | reflexivity].
- right. split; [|reflexivity].
  destruct (header_value h (lower key)) eqn:V; [|reflexivity].
  assert (K : header_value h (lower key) <> None) by congruence.
  apply present_header_value in K. congruence.
Qed.

(** After [setdefault] the header is there, with the value it had or else
    the default; the other headers read as before; the old list is a prefix. *)
Lemma setdefault_value h key value :
header_value (setdefault h key value) (lower key)
  = Some (match header_value h (lower key) with Some v => v | None => value end) /\
(forall name, name <> lower key ->
   header_value (setdefault h key value) name = header_value h name) /\
exists added, setdefault h key value = h ++ added.
Proof.
destruct (setdefault_cases h key value) as [[Hp ->] | [Hn ->]].
- split; [destruct (header_value h (lower key)); congruence|].
  split; [reflexivity|]. exists []. now rewrite app_nil_r.
- split.
  + rewrite header_value_app, Hn. unfold header_value. simpl.
    now rewrite String.eqb_refl.
  + split; [|eexists; reflexivity].
    intros name Hne. rewrite header_value_app.
    destruct (header_value h name); [reflexivity|].
    unfold header_value. simpl.
    destruct (String.eqb_spec (lower key) name); [congruence | reflexivity].
Qed.

(** X15: the middleware leaves the headers of the response as the route
    made them, in place and order, and appends what is missing of its four:
    afterwards each of the four is present, with the route's value if the
    route had set it (under the lowercase name) and with the default
    otherwise; every other header reads as before; and passing through the
    middleware twice is passing through it once. *)
Theorem set_security_headers_defaults h :
(exists added, set_security_headers h = h ++ added) /\
(forall name v, header_value h name = Some v ->
   header_value (set_security_headers h) name = Some v) /\
header_value (set_security_headers h) "x-content-type-options"
  = Some (match header_value h "x-content-type-options" with
          | Some v => v | None => "nosniff"%string end) /\
header_value (set_security_headers h) "x-frame-options"
  = Some (match header_value h "x-frame-options" with
          | Some v => v | None => "DENY"%string end) /\
header_value (set_security_headers h) "referrer-policy"
  = Some (match header_value h "referrer-policy" with
          | Some v => v | None => "no-referrer"%string end) /\
header_value (set_security_headers h) "x-xss-protection"
  = Some (match header_value h "x-xss-protection" with
          | Some v => v | None => "0"%string end) /\
(forall name, ~ In name security_header_names ->
   header_value (set_security_headers h) name = header_value h name) /\
set_security_headers (set_security_headers h) = set_security_headers h.
Proof.
unfold set_security_headers.
set (h1 := setdefault h "X-Content-Type-Options" "nosniff").
set (h2 := setdefault h1 "X-Frame-Options" "DENY").
set (h3 := setdefault h2 "Referrer-Policy" "no-referrer").
set (h4 := setdefault h3 "X-XSS-Protection" "0").
destruct (setdefault_value h "X-Content-Type-Options" "nosniff") as (V1 & O1 & (a1 & A1)).
destruct (setdefault_value h1 "X-Frame-Options" "DENY") as (V2 & O2 & (a2 & A2)).
destruct (setdefault_value h2 "Referrer-Policy" "no-referrer") as (V3 & O3 & (a3 & A3)).
destruct (setdefault_value h3 "X-XSS-Protection" "0") as (V4 & O4 & (a4 & A4)).
fold h1 in V1, O1, A1. fold h2 in V2, O2, A2. fold h3 in V3, O3, A3.
fold h4 in V4, O4, A4.
change (lower "X-Content-Type-Options") with "x-content-type-options"%string in *.
change (lower "X-Frame-Options") with "x-frame-options"%string in *.
change (lower "Referrer-Policy") with "referrer-policy"%string in *.
change (lower "X-XSS-Protection") with "x-xss-protection"%string in *.
assert (Hpre : forall name v, header_value h name = Some v -> header_value h4 name = Some v).
{ intros name v Hv. rewrite A4, A3, A2, A1.
  rewrite !header_value_app, Hv. reflexivity. }
assert (E1 : header_value h4 "x-content-type-options"
             = Some match header_value h "x-content-type-options" with
                    | Some v => v | None => "nosniff"%string end).
{ rewrite O4, O3, O2 by discriminate. exact V1. }
assert (E2 : header_value h4 "x-frame-options"
             = Some match header_value h "x-frame-options" with
                    | Some v => v | None => "DENY"%string end).
{ rewrite O4, O3 by discriminate. rewrite V2, O1 by discriminate. reflexivity. }
assert (E3 : header_value h4 "referrer-policy"
             = Some match header_value h "referrer-policy" with
                    | Some v => v | None => "no-referrer"%string end).
{ rewrite O4 by discriminate. rewrite V3, O2, O1 by discriminate. reflexivity. }
assert (E4 : header_value h4 "x-xss-protection"
             = Some match header_value h "x-xss-protection" with
                    | Some v => v | None => "0"%string end).
{ rewrite V4, O3, O2, O1 by discriminate. reflexivity. }
split.
{ exists (a1 ++ a2 ++ a3 ++ a4). rewrite A4, A3, A2, A1. now rewrite <- !app_assoc. }
split; [exact Hpre|].
split; [exact E1|]. split; [exact E2|]. split; [exact E3|]. split; [exact E4|].
split.
{ intros name Hnot. unfold security_header_names in Hnot. simpl in Hnot.
  rewrite O4, O3, O2, O1; [reflexivity| | | |]; intros ->; apply Hnot; auto. }
(* a second pass finds all four *)
assert (P1 : setdefault h4 "X-Content-Type-Options" "nosniff" = h4).
{ destruct (setdefault_cases h4 "X-Content-Type-Options" "nosniff")
    as [[_ E]|[N _]]; [exact E|].
  change (lower "X-Content-Type-Options") with "x-content-type-options"%string in N.
  rewrite E1 in N. discriminate. }
assert (P2 : setdefault h4 "X-Frame-Options" "DENY" = h4).
{ destruct (setdefault_cases h4 "X-Frame-Options" "DENY") as [[_ E]|[N _]]; [exact E|].
  change (lower "X-Frame-Options") with "x-frame-options"%string in N.
  rewrite E2 in N. discriminate. }
assert (P3 : setdefault h4 "Referrer-Policy" "no-referrer" = h4).
{ destruct (setdefault_cases h4 "Referrer-Policy" "no-referrer") as [[_ E]|[N _]]; [exact E|].
  change (lower "Referrer-Policy") with "referrer-policy"%string in N.
  rewrite E3 in N. discriminate. }
assert (P4 : setdefault h4 "X-XSS-Protection" "0" = h4).
{ destruct (setdefault_cases h4 "X-XSS-Protection" "0") as [[_ E]|[N _]]; [exact E|].
  change (lower "X-XSS-Protection") with "x-xss-protection"%string in N.
  rewrite E4 in N. discriminate. }
rewrite P1, P2, P3, P4. reflexivity.
Qed.

End SecurityHeaders.

(* ===================================================================== *)
(** ** The CORS origins *)
(* ===================================================================== *)

Section CorsOrigins.
Import Cors MoreProps.

Example allow_origins_default : allow_origins None = ["*"%string].
Proof. reflexivity. Qed.

Example allow_origins_two :
allow_origins (Some " https://a.example , ,https://b.example,"%string)
= ["https://a.example"; "https://b.example"]%string.
Proof. reflexivity. Qed.

Lemma split_comma_nonempty s : split_comma s <> [].
Proof.
destruct s as [|c rest]; simpl; [discriminate|].
destruct (Ascii.eqb c ","); [discriminate|].
destruct (split_comma rest); discriminate.
Qed.

Lemma split_comma_no_comma s :
Forall (fun part => ~ In ","%char (chars part)) (split_comma s).
Proof.
induction s as [|c rest IH]; simpl.
- constructor; [intros [] | constructor].
- destruct (Ascii.eqb_spec c ",") as [->|Hne].
  + constructor; [intros [] | exact IH].
  + destruct (split_comma rest) as [|part parts]; simpl.
    * constructor; [|constructor]. simpl. intros [E|[]]. congruence.
    * inversion IH as [|? ? Hpart Hparts]; subst.
      constructor; [|exact Hparts].
      simpl. intros [E|Hin]; [congruence | contradiction].
Qed.

Lemma lstrip_chars s c : In c (chars (lstrip s)) -> In c (chars s).
Proof.
induction s as [|a rest IH]; simpl; [tauto|].
destruct (isspace a); simpl; [intros H; right; now apply IH | tauto].
Qed.

Lemma rstrip_chars s c : In c (chars (rstrip s)) -> In c (chars s).
Proof.
revert c. induction s as [|a rest IH]; intros c; simpl; [tauto|].
destruct (rstrip rest) as [|b kept].
- destruct (isspace a); simpl; [tauto | intros [E|[]]; now left].
- intros [E|Hin]; [now left | right; now apply IH].
Qed.

Lemma lstrip_first s : forall c, first_char (lstrip s) = Some c -> isspace c = false.
Proof.
induction s as [|a rest IH]; intros c; simpl; [discriminate|].
destruct (isspace a) eqn:E; [apply IH|].
unfold first_char. simpl. intros H. now injection H as <-.
Qed.

Lemma rstrip_first s : rstrip s <> EmptyString -> first_char (rstrip s) = first_char s.
Proof.
destruct s as [|a rest]; simpl; [congruence|].
destruct (rstrip rest); [destruct (isspace a); [congruence|]|]; reflexivity.
Qed.

Lemma rstrip_last s : forall c, last_char (rstrip s) = Some c -> isspace c = false.
Proof.
unfold last_char, chars.
induction s as [|a rest IH]; intros c; simpl; [discriminate|].
destruct (rstrip rest) as [|b kept] eqn:E.
- destruct (isspace a) eqn:Ea; simpl; [discriminate|].
  intros H. now injection H as <-.
- intros H. apply IH. simpl in *.
  destruct (rev (list_ascii_of_string kept) ++ [b])%list eqn:R.
  + destruct (rev (list_ascii_of_string kept)); discriminate.
  + simpl in H. exact H.
Qed.

(** X18: every origin that the application allows is non-empty, contains
    no comma, and neither starts nor ends with a whitespace character,
    whatever the environment variable holds; an unset variable allows the
    single origin "*"; and a value made of commas and whitespace only allows
    none. *)
Theorem allow_origins_clean (env : option string) :
Forall (fun o =>
          o <> EmptyString /\
          ~ In ","%char (chars o) /\
          (forall c, first_char o = Some c -> isspace c = false) /\
          (forall c, last_char o = Some c -> isspace c = false))
       (allow_origins env) /\
allow_origins None = ["*"%string] /\
(forall v, env = Some v ->
   (forall c, In c (chars v) -> c = ","%char \/ isspace c = true) ->
   allow_origins env = []).
Proof.
split; [|split; [reflexivity|]].
- unfold allow_origins.
  set (origins_env := match env with Some v => v | None => "*"%string end).
  apply Forall_forall. intros o Ho. apply in_map_iff in Ho.
  destruct Ho as (part & <- & Hpart). apply filter_In in Hpart.
  destruct Hpart as [Hin Hne].
  assert (Hnon : strip part <> EmptyString)
    by (destruct (strip part); [discriminate | congruence]).
  split; [exact Hnon|]. split; [|split].
  + intros Hc. unfold strip in Hc. apply rstrip_chars, lstrip_chars in Hc.
    pose proof (split_comma_no_comma origins_env) as F.
    rewrite Forall_forall in F. exact (F part Hin Hc).
  + intros c Hc. unfold strip in *. rewrite rstrip_first in Hc by exact Hnon.
    now apply (lstrip_first part).
  + intros c Hc. unfold strip in Hc. now apply (rstrip_last (lstrip part)).
- intros v -> Hall. unfold allow_origins.
  assert (E : filter (fun o => nonempty (strip o)) (split_comma v) = []).
  { assert (F : Forall (fun part => forall c, In c (chars part) -> isspace c = true)
                       (split_comma v)).
    { clear -Hall. induction v as [|a rest IH]; simpl.
      - constructor; [intros c [] | constructor].
      - assert (Hrest : forall c, In c (chars rest) -> c = ","%char \/ isspace c = true)
          by (intros c Hc; apply Hall; now right).
        specialize (IH Hrest).
        destruct (Ascii.eqb_spec a ",") as [->|Hne].
        + constructor; [intros c [] | exact IH].
        + destruct (split_comma rest) as [|part parts]; simpl.
          * constructor; [|constructor]. simpl. intros c [<-|[]].
            destruct (Hall a (or_introl eq_refl)); [contradiction | assumption].
          * inversion IH as [|? ? Hpart Hparts]; subst.
            constructor; [|exact Hparts].
            simpl. intros c [<-|Hc]; [|now apply Hpart].
            destruct (Hall a (or_introl eq_refl)); [contradiction | assumption]. }
    induction F as [|part parts Hpart _ IH]; simpl; [reflexivity|].
    assert (S : strip part = EmptyString).
    { unfold strip.
      assert (L : lstrip part = EmptyString).
      { clear -Hpart. induction part as [|a rest IH]; simpl; [reflexivity|].
        rewrite (Hpart a (or_introl eq_refl)). apply IH.
        intros c Hc. apply Hpart. now right. }
      now rewrite L. }
    rewrite S. simpl. exact IH. }
  now rewrite E.
Qed.

Lemma allow_origins_clean_witness :
allow_origins (Some " , ,"%string) = [].
Proof.
apply (proj2 (proj2 (allow_origins_clean (Some " , ,"%string))) " , ,"%string eq_refl).
intros c Hc. simpl in Hc.
repeat (destruct Hc as [<-|Hc]; [first [left; reflexivity | right; reflexivity]|]).
contradiction.
Defined.

End CorsOrigins.

(* ===================================================================== *)
(** ** Keys: fresh, unique, and gone after a deletion *)
(* ===================================================================== *)

Section Keys.
Import Py Schemas Rules Pandas ModelUtils Database Main Props Listing Patients MoreProps.
Variable Estimator : Type.
Variable rt : Runtime Estimator.

Lemma NoDup_snoc (A : Type) (l : list A) (x : A) :
NoDup l -> ~ In x l -> NoDup (l ++ [x]).
Proof.
intros Hl Hx. apply NoDup_app; [exact Hl | repeat constructor; auto |].
intros y Hy [<-|[]]. contradiction.
Qed.

Lemma NoDup_map_filter (A B : Type) (f : A -> B) (g : A -> bool) (l : list A) :
NoDup (map f l) -> NoDup (map f (filter g l)).
Proof.
induction l as [|x l IH]; simpl; intros H; [constructor|].
inversion H as [|? ? Hx Hl]; subst.
destruct (g x); simpl; [|now apply IH].
constructor; [|now apply IH].
intros K. apply Hx. apply in_map_iff in K. destruct K as (y & E & Hy).
apply filter_In in Hy. apply in_map_iff. exists y. tauto.
Qed.

(** Removing the row that was appended under a fresh key gives the table
    back. *)
Lemma filter_out_appended (l : list Prediction.t) (row : Prediction.t) :
~ In (Prediction.id row) (map Prediction.id l) ->
filter (fun r => negb (Z.eqb (Prediction.id r) (Prediction.id row))) (l ++ [row]) = l.
Proof.
intros Hfresh. rewrite filter_app. simpl. rewrite Z.eqb_refl. simpl.
rewrite app_nil_r. induction l as [|x l IH]; simpl; [reflexivity|].
destruct (Z.eqb_spec (Prediction.id x) (Prediction.id row)) as [E|_]; simpl.
- exfalso. apply Hfresh. simpl. now left.
- f_equal. apply IH. intros K. apply Hfresh. simpl. now right.
Qed.

(** X19: the same payload asked twice in a row, with the artifacts
    unchanged in between, gets the same level both times and two different
    keys, the second above the first. *)
Theorem predict_twice_same_level payload now later db :
exists first second db1 db2,
  post_predict rt payload now db = (Ok first, db1) /\
  post_predict rt payload later db1 = (Ok second, db2) /\
  risk_level second = risk_level first /\
  (id first < id second)%Z /\
  models db2 = models db.
Proof.
destruct (post_predict_store rt payload now db) as (r1 & Hr1 & P1).
set (db1 := store_after_predict db now (RiskLevel_str r1) payload) in *.
destruct (post_predict_store rt payload later db1) as (r2 & Hr2 & P2).
eexists _, _, _, _. split; [exact P1|]. split; [exact P2|]. simpl.
assert (Hq : query_active_model (open_session db1) = query_active_model (open_session db))
  by reflexivity.
rewrite Hq, Hr1 in Hr2.
assert (E : r2 = r1).
{ apply (f_equal RiskLevel_of_str) in Hr2. rewrite !RiskLevel_of_str_str in Hr2.
  now injection Hr2. }
split; [exact E|]. split; [|reflexivity].
pose proof (next_id_above (map Prediction.id (predictions db1))) as A.
unfold db1, store_after_predict in A. simpl in A.
rewrite map_app, Forall_app in A. destruct A as [_ A].
inversion A as [|? ? Hlt _]; subst. rewrite map_app. exact Hlt.
Qed.

(** X20: the routes keep primary keys unique: when no two predictions
    share a key, none do after [predict], [triage] or a deletion; and when no
    two artifacts share a key, none do after [train], failed or not. *)
Theorem routes_keep_keys_unique db :
(NoDup (map Prediction.id (predictions db)) ->
   (forall payload now,
      NoDup (map Prediction.id (predictions (snd (post_predict rt payload now db))))) /\
   (forall payload now,
      NoDup (map Prediction.id (predictions (snd (with_db (triage payload now) db))))) /\
   (forall now patient_id,
      NoDup (map Prediction.id (predictions (snd (post_delete_patient now patient_id db)))))) /\
(NoDup (map ModelArtifact.id (models db)) ->
   forall request now,
     NoDup (map ModelArtifact.id (models (snd (post_train rt request now db))))).
Proof.
split.
- intros Hnd. repeat split.
  + intros payload now.
    destruct (post_predict_store rt payload now db) as (r & _ & ->). simpl.
    rewrite map_app. simpl. apply NoDup_snoc; [exact Hnd | apply next_id_fresh].
  + intros payload now. unfold with_db.
    pose proof (triage_computes payload now db) as T. simpl in T. rewrite T. simpl.
    rewrite map_app. simpl. apply NoDup_snoc; [exact Hnd | apply next_id_fresh].
  + intros now patient_id. rewrite post_delete_patient_store.
    destruct (find _ (predictions db)); simpl; [|exact Hnd].
    now apply NoDup_map_filter.
- intros Hnd request now.
  destruct (post_train_store rt request now db)
    as [[e ->] | (resp & bn & bs & bp & art & ->)]; [exact Hnd|].
  unfold store_after_train. simpl. rewrite map_app, map_id_set_active. simpl.
  apply NoDup_snoc; [exact Hnd | apply next_id_fresh].
Qed.

(** X21: deleting the record that [triage] or [predict] has just created,
    by the key of the answer, succeeds and gives back the database as it was
    before the request. *)
Theorem delete_undoes_new_prediction db :
(forall payload now later,
   exists resp db1,
     with_db (triage payload now) db = (Ok resp, db1) /\
     post_delete_patient later (id resp) db1
     = (Returned (mkDeleteResponse true "Patient deleted successfully"), db)) /\
(forall payload now later,
   exists resp db1,
     post_predict rt payload now db = (Ok resp, db1) /\
     post_delete_patient later (id resp) db1
     = (Returned (mkDeleteResponse true "Patient deleted successfully"), db)).
Proof.
assert (Hundo : forall row later,
          Prediction.id row = next_id (map Prediction.id (predictions db)) ->
          post_delete_patient later (Prediction.id row)
            (mkStore (models db) (predictions db ++ [row]))
          = (Returned (mkDeleteResponse true "Patient deleted successfully"), db)).
{ intros row later Hid.
  assert (Hfresh : ~ In (Prediction.id row) (map Prediction.id (predictions db)))
    by (rewrite Hid; apply next_id_fresh).
  rewrite post_delete_patient_store. simpl.
  rewrite (find_appended Prediction.id (predictions db) row Hfresh).
  rewrite (filter_out_appended (predictions db) row Hfresh).
  destruct db; reflexivity. }
split.
- intros payload now later. unfold with_db.
  pose proof (triage_computes payload now db) as T. simpl in T. rewrite T.
  eexists _, _. split; [reflexivity|]. simpl.
  apply (Hundo (Prediction.mk (next_id (map Prediction.id (predictions db)))
                  (RiskLevel_str (triage_risk_model payload))
                  (TriageInput_model_dump payload) now)).
  reflexivity.
- intros payload now later.
  destruct (post_predict_store rt payload now db) as (r & _ & ->).
  eexists _, _. split; [reflexivity|]. simpl.
  apply (Hundo (new_prediction db now (RiskLevel_str r) payload)). reflexivity.
Qed.

End Keys.

(* ===================================================================== *)
(** ** Sample runs of the further properties *)
(* ===================================================================== *)

Section MoreRuns.
Import Py Schemas Rules Pandas ModelUtils Database Main Props Listing Patients MoreProps.

Lemma predict_then_list_predictions_witness :
exists resp db' item rest,
  post_predict (sample_runtime everything_installed)
    (mkPredictionInput 1500 "general" None) 77 sample_predictions = (Ok resp, db') /\
  list_predictions (open_session db') = Ok (item :: rest) /\
  PredictionRecord.id item = id resp /\
  PredictionRecord.risk_level item = risk_level resp.
Proof.
assert (V : risk_levels_valid sample_predictions).
{ unfold risk_levels_valid, sample_predictions. simpl.
  repeat (constructor; [simpl; auto 6|]). constructor. }
assert (N : Forall (fun r => (Prediction.created_at r < 77)%Z)
                   (predictions sample_predictions)).
{ unfold sample_predictions. simpl. repeat (constructor; [simpl; lia|]). constructor. }
destruct (predict_then_list_predictions (sample_runtime everything_installed)
            (mkPredictionInput 1500 "general" None) V N)
  as (resp & db' & item & rest & Hp & Hl & Hid & Hrisk & _).
exists resp, db', item, rest. repeat split; assumption.
Defined.

Lemma train_then_active_model_witness :
exists resp db' m,
  post_train (sample_runtime everything_installed) sample_request 50 sample_store
  = (Ok resp, db') /\
  query_active_model (open_session db') = Some m /\
  ModelArtifact.id m = model_id resp /\
  ModelArtifact.name m = "XGBoost"%string.
Proof.
assert (H : train_select_serialize (sample_runtime everything_installed)
              (map TrainRecord_model_dump (records sample_request))
              (scoring sample_request) (cv_folds sample_request)
            = Ok ("XGBoost"%string, 0.9%float,
                  [("clf__learning_rate", VFloat 0.1); ("clf__max_depth", VInt 3);
                   ("clf__n_estimators", VInt 200)]%string,
                  list_byte_of_string "xgb")) by (vm_compute; reflexivity).
destruct (train_then_active_model (sample_runtime everything_installed)
            sample_request 50 sample_store H)
  as (resp & db' & m & Hp & Hq & _ & Hid & Hname & Hbn & _).
exists resp, db', m. repeat split; try assumption. now rewrite Hname.
Defined.

Lemma delete_absent_patient_witness :
post_delete_patient 50 9 sample_predictions
= (HTTPException 404 "Patient not found", sample_predictions).
Proof.
assert (B : int64 9) by (unfold int64; lia).
assert (H : ~ In 9%Z (map Prediction.id (predictions sample_predictions)))
  by (simpl; intros [H|[H|[H|[]]]]; discriminate).
exact (proj2 (proj2 (@delete_absent_patient 50 9 sample_predictions B H))).
Defined.

Lemma delete_present_patient_witness :
exists db',
  post_delete_patient 50 2 sample_predictions
  = (Returned (mkDeleteResponse true "Patient deleted successfully"), db') /\
  map Prediction.id (predictions db') = [1; 3]%Z.
Proof.
assert (H : In 2%Z (map Prediction.id (predictions sample_predictions)))
  by (simpl; auto).
destruct (@delete_present_patient 50 2 sample_predictions H)
  as (patient & db' & _ & _ & _ & Hd & _ & _ & Hp & _).
exists db'. split; [exact Hd|]. rewrite Hp. reflexivity.
Defined.

Lemma build_preprocessor_splits_columns_witness :
_build_preprocessor typed_runtime
  (mkDataFrame 1 [("amount", [VFloat 5]); ("category", [VStr "a"])]%string)
= Ok (mkColumnTransformer ["amount"%string] ["category"%string]) /\
~ In "amount"%string ["category"%string].
Proof.
assert (H : _build_preprocessor typed_runtime
              (mkDataFrame 1 [("amount", [VFloat 5]); ("category", [VStr "a"])]%string)
            = Ok (mkColumnTransformer ["amount"%string] ["category"%string]))
  by reflexivity.
split; [exact H|].
destruct (build_preprocessor_splits_columns typed_runtime _ H) as (_ & _ & _ & Hd & _).
apply (Hd "amount"%string). simpl. now left.
Defined.

Lemma records_to_dataframe_aligned_witness :
exists X_df,
  _records_to_dataframe (sample_runtime everything_installed)
    (map TrainRecord_model_dump (records sample_request))
  = Ok (X_df, [VStr "low"; VStr "high"]%string) /\
  nrows X_df = 2%nat.
Proof.
assert (Hne : records sample_request <> []) by discriminate.
destruct (@records_to_dataframe_aligned _ (sample_runtime everything_installed)
            (records sample_request) Hne eq_refl eq_refl) as [Hr _].
eexists. split; [exact Hr | reflexivity].
Defined.

Lemma inference_row_entries_witness :
dict_get (inference_row (mkPredictionInput 5000 "wire" (Some [("amount", VInt 1)]%string)))
         "amount"
= Some (VInt 1).
Proof.
assert (Hnd : NoDup (dict_keys [("amount"%string, VInt 1)]))
  by (simpl; repeat constructor; simpl; tauto).
apply (proj1 (proj2 (@inference_row_entries
         (mkPredictionInput 5000 "wire" (Some [("amount", VInt 1)]%string)) Hnd))).
simpl. now left.
Defined.

Lemma candidate_grids_settings_witness :
exists grids,
  candidate_grids (sample_runtime everything_installed)
    (mkColumnTransformer ["amount"%string] ["category"%string])
    (Some "f1_macro"%string) (Some 3%Z) = Ok grids /\
  NoDup (map fst grids) /\ List.length grids = 3%nat.
Proof.
destruct (candidate_grids (sample_runtime everything_installed)
            (mkColumnTransformer ["amount"%string] ["category"%string])
            (Some "f1_macro"%string) (Some 3%Z)) as [grids|e] eqn:E.
- exists grids. split; [reflexivity|].
  destruct (candidate_grids_settings _ _ _ _ E) as (_ & Hnd & _).
  split; [exact Hnd|]. vm_compute in E. injection E as <-. reflexivity.
- vm_compute in E. discriminate E.
Defined.

Lemma train_select_serialize_score_above_sentinel_witness :
PyFloat.gt 0.9%float PyFloat.neg_inf = true /\
In "XGBoost"%string ["RandomForest"; "XGBoost"; "LightGBM"]%string.
Proof.
assert (H : train_select_serialize (sample_runtime everything_installed)
              (map TrainRecord_model_dump (records sample_request))
              (scoring sample_request) (cv_folds sample_request)
            = Ok ("XGBoost"%string, 0.9%float,
                  [("clf__learning_rate", VFloat 0.1); ("clf__max_depth", VInt 3);
                   ("clf__n_estimators", VInt 200)]%string,
                  list_byte_of_string "xgb")) by (vm_compute; reflexivity).
destruct (train_select_serialize_score_above_sentinel _ _ _ _ H) as (Hgt & _ & Hin).
split; assumption.
Defined.

Lemma routes_keep_keys_unique_witness :
NoDup (map Prediction.id
         (predictions (snd (with_db (triage sample_triage 50) sample_predictions)))).
Proof.
assert (H : NoDup (map Prediction.id (predictions sample_predictions))).
{ simpl. repeat (constructor; [simpl; intuition discriminate|]). constructor. }
exact (proj1 (proj2 (proj1 (routes_keep_keys_unique
                              (sample_runtime everything_installed)
                              sample_predictions) H)) sample_triage 50%Z).
Defined.

End MoreRuns.
